(** * PostBot: the post-composition dialogue of [main.py]

    A shallow embedding of the bot's handlers, of the two SQLite tables they
    use and of the dispatcher's finite-state storage, followed by the
    properties of the composition dialogue.

    Conventions.
    - A Python [str] is a list of Unicode code points ([pystr]); the literals
      of the source are decoded from their UTF-8 spelling by [py].
    - Python's [None] is the [None] of [option]: a value that may be [None]
      is an [option].
    - A handler is a computation in [M]: it threads the [World] (database,
      dispatcher storage, delivered messages) and may raise.
    - The tables are lists of rows in insertion order, the dispatcher storage
      and the per-chat data dictionaries are finite maps. *)

From Stdlib Require Import NArith ZArith Ascii String.
From stdpp Require Import gmap strings list.

Open Scope Z_scope.

(** ** Python strings *)

Definition pystr : Type := list N.

(** A value that may be [None]. *)
Definition value : Type := option pystr.

Definition bytes_of (s : string) : list N :=
  (λ a, N_of_ascii a) <$> list_ascii_of_string s.

(** UTF-8 decoding of a well-formed byte sequence (used for literals only). *)
Fixpoint utf8_decode (bs : list N) : pystr :=
  match bs with
  | [] => []
  | b0 :: r0 =>
    if (b0 <? 0x80)%N then b0 :: utf8_decode r0
    else match r0 with
    | [] => []
    | b1 :: r1 =>
      if (b0 <? 0xE0)%N
      then ((b0 - 0xC0) * 64 + (b1 - 0x80))%N :: utf8_decode r1
      else match r1 with
      | [] => []
      | b2 :: r2 =>
        if (b0 <? 0xF0)%N
        then ((b0 - 0xE0) * 4096 + (b1 - 0x80) * 64 + (b2 - 0x80))%N
               :: utf8_decode r2
        else match r2 with
        | [] => []
        | b3 :: r3 =>
          ((b0 - 0xF0) * 262144 + (b1 - 0x80) * 4096
           + (b2 - 0x80) * 64 + (b3 - 0x80))%N :: utf8_decode r3
        end
      end
    end
  end.

Definition py (s : string) : pystr := utf8_decode (bytes_of s).

(** The delimiter of the button specification, ["|"]. *)
Definition BAR : N := 124%N.

(** The word that declines media or button, ["нет"]. *)
Definition NET : pystr := Eval vm_compute in py "нет".

(** [Py_UNICODE_ISSPACE]: the code points [str.strip()] removes. *)
Definition isspace (c : N) : bool :=
  ((9 <=? c) && (c <=? 13) || (28 <=? c) && (c <=? 32)
   || (c =? 0x85) || (c =? 0xA0) || (c =? 0x1680)
   || (0x2000 <=? c) && (c <=? 0x200A)
   || (c =? 0x2028) || (c =? 0x2029) || (c =? 0x202F)
   || (c =? 0x205F) || (c =? 0x3000))%N.

Fixpoint lstrip (s : pystr) : pystr :=
  match s with
  | [] => []
  | c :: r => if isspace c then lstrip r else s
  end.

Definition rstrip (s : pystr) : pystr := reverse (lstrip (reverse s)).

(** [s.strip()] *)
Definition strip (s : pystr) : pystr := rstrip (lstrip s).

(** [s.partition(sep)] for a one-character [sep], when [sep] occurs. *)
Fixpoint partition (sep : N) (s : pystr) : option (pystr * pystr) :=
  match s with
  | [] => None
  | c :: r =>
    if (c =? sep)%N then Some ([], r)
    else match partition sep r with
         | Some (a, b) => Some (c :: a, b)
         | None => None
         end
  end.

(** [s.split(sep, 1)] for a one-character [sep]. *)
Definition split1 (sep : N) (s : pystr) : list pystr :=
  match partition sep s with
  | Some (a, b) => [a; b]
  | None => [s]
  end.

(** [a, b = parts]; [None] stands for the [ValueError] of a wrong length. *)
Definition unpack2 (parts : list pystr) : option (pystr * pystr) :=
  match parts with
  | [a; b] => Some (a, b)
  | _ => None
  end.

(** [html.escape(s, quote=False)], which aiogram's HTML decoration applies
    to the text of a message when it renders [html_text]: [&], [<] and [>]
    become entities, every other character is kept. *)
Definition html_quote (s : pystr) : pystr :=
  c ← s;
  if (c =? 38)%N then [38; 97; 109; 112; 59]%N          (* &amp; *)
  else if (c =? 60)%N then [38; 108; 116; 59]%N         (* &lt; *)
  else if (c =? 62)%N then [38; 103; 116; 59]%N         (* &gt; *)
  else [c].
Arguments html_quote : simpl never.

(** Truth value of an optional string: [None] and [""] are false. *)
Definition truthy (v : value) : bool :=
  match v with
  | Some (_ :: _) => true
  | _ => false
  end.

(** ** Telegram objects *)

Record Message := {
  m_from_user : Z;                 (* message.from_user.id *)
  m_chat : Z;                      (* message.chat.id *)
  m_text : value;                  (* message.text *)
  m_html_text : pystr;             (* message.html_text *)
  m_photo : option (list pystr);   (* file_id of each message.photo size *)
  m_video : value                  (* message.video.file_id *)
}.

Record CallbackQuery := {
  cq_id : pystr;
  cq_from_user : Z;                (* callback.from_user.id *)
  cq_chat : Z;                     (* callback.message.chat.id *)
  cq_data : value                  (* callback.data *)
}.

Inductive InlineKeyboardButton :=
| callback_button (text callback_data : pystr)
| url_button (text url : pystr).

Definition InlineKeyboardMarkup : Type := list (list InlineKeyboardButton).

(** A chat is addressed by its numeric id or by a string (a channel's
    [@username] or id as the operator typed it). *)
Inductive chat_ref :=
| chat_id (id : Z)
| chat_str (s : pystr).

(** The requests the handlers make to the Bot API. *)
Inductive Action :=
| send_message (chat : chat_ref) (text : value)
               (reply_markup : option InlineKeyboardMarkup)
| send_photo (chat : chat_ref) (photo : pystr) (caption : value)
             (reply_markup : option InlineKeyboardMarkup)
| answer_callback_query (id : pystr).

(** ** States *)

Module PostForm.
Inductive State := set_channel | text | media | button.
#[global] Instance State_eq_dec : EqDecision State.
Proof. solve_decision. Defined.
End PostForm.

(** ** The world *)

Record users_row := { u_user_id : Z; u_channel_id : pystr }.

Record posts_row := {
  p_user_id : Z;
  p_text : value;
  p_media : value;
  p_button_text : value;
  p_button_url : value
}.

(** The key of a dialogue in the dispatcher storage: chat and user. *)
Definition FSMContext : Type := Z * Z.

Record MemoryStorageRecord := {
  rec_state : option PostForm.State;
  rec_data : gmap string value
}.

Record World := {
  users : list users_row;
  posts : list posts_row;
  storage : gmap (Z * Z) MemoryStorageRecord;
  outbox : list Action            (* requests delivered so far, oldest first *)
}.

Definition with_users (t : list users_row) (w : World) : World :=
  {| users := t; posts := posts w; storage := storage w; outbox := outbox w |}.
Definition with_posts (t : list posts_row) (w : World) : World :=
  {| users := users w; posts := t; storage := storage w; outbox := outbox w |}.
Definition with_storage (s : gmap (Z * Z) MemoryStorageRecord) (w : World) : World :=
  {| users := users w; posts := posts w; storage := s; outbox := outbox w |}.
Definition with_outbox (o : list Action) (w : World) : World :=
  {| users := users w; posts := posts w; storage := storage w; outbox := o |}.

(** ** Handler computations *)

Inductive exn :=
| AttributeError (attr : string)   (* 'NoneType' object has no attribute .. *)
| KeyError (key : string)
| TelegramError (cause : pystr).   (* a failed Bot API request *)

Inductive outcome (A : Type) :=
| Return (a : A)
| Raise (e : exn).
Arguments Return {A} a.
Arguments Raise {A} e.

Definition M (A : Type) : Type := World → outcome A * World.

#[global] Instance M_ret : MRet M := λ A a w, (Return a, w).
#[global] Instance M_bind : MBind M := λ A B f m w,
  match m w with
  | (Return a, w') => f a w'
  | (Raise e, w') => (Raise e, w')
  end.

Definition raise {A} (e : exn) : M A := λ w, (Raise e, w).

(** [try: body  except Exception as e: handler e] *)
Definition try_except {A} (body : M A) (handler : exn → M A) : M A := λ w,
  match body w with
  | (Return a, w') => (Return a, w')
  | (Raise e, w') => handler e w'
  end.

Definition gets {A} (f : World → A) : M A := λ w, (Return (f w), w).
Definition modify (f : World → World) : M unit := λ w, (Return tt, f w).

(** ** Database

    The schema is the one [init_db] creates: [users] has [user_id] as its
    primary key, [posts] has no key. *)

(** [INSERT OR REPLACE INTO users]: the row that conflicts on the primary
    key is deleted, then the new row is inserted. *)
Definition insert_or_replace_users (user_id : Z) (channel_id : pystr)
    (t : list users_row) : list users_row :=
  filter (λ r, u_user_id r ≠ user_id) t
  ++ [{| u_user_id := user_id; u_channel_id := channel_id |}].

(** [SELECT ... WHERE user_id=?] followed by [fetchone()]. *)
Definition fetchone_users (user_id : Z) (t : list users_row) : option users_row :=
  head (filter (λ r, u_user_id r = user_id) t).

Definition delete_from_posts (user_id : Z) (t : list posts_row) : list posts_row :=
  filter (λ r, p_user_id r ≠ user_id) t.

Definition insert_into_posts (r : posts_row) (t : list posts_row) : list posts_row :=
  t ++ [r].

Definition fetchone_posts (user_id : Z) (t : list posts_row) : option posts_row :=
  head (filter (λ r, p_user_id r = user_id) t).

Definition set_channel (user_id : Z) (channel_id : pystr) : M unit :=
  modify (λ w, with_users (insert_or_replace_users user_id channel_id (users w)) w).

Definition get_channel (user_id : Z) : M value :=
  gets (λ w, u_channel_id <$> fetchone_users user_id (users w)).

Definition save_post (user_id : Z) (text media button_text button_url : value)
    : M unit :=
  modify (λ w, with_posts
    (insert_into_posts
       {| p_user_id := user_id; p_text := text; p_media := media;
          p_button_text := button_text; p_button_url := button_url |}
       (delete_from_posts user_id (posts w))) w).

Definition get_post (user_id : Z) : M (option (value * value * value * value)) :=
  gets (λ w, (λ r, (p_text r, p_media r, p_button_text r, p_button_url r))
               <$> fetchone_posts user_id (posts w)).

(** ** Dispatcher storage ([MemoryStorage]) *)

Definition blank : MemoryStorageRecord := {| rec_state := None; rec_data := ∅ |}.

(** The storage is a [defaultdict]: a key never written reads as [blank]. *)
Definition record_at (state : FSMContext) (w : World) : MemoryStorageRecord :=
  default blank (storage w !! state).

Definition set_state (state : FSMContext) (st : option PostForm.State) : M unit :=
  modify (λ w, with_storage
    (<[state := {| rec_state := st; rec_data := rec_data (record_at state w) |}]>
       (storage w)) w).

Definition set_data (state : FSMContext) (d : gmap string value) : M unit :=
  modify (λ w, with_storage
    (<[state := {| rec_state := rec_state (record_at state w); rec_data := d |}]>
       (storage w)) w).

Definition get_data (state : FSMContext) : M (gmap string value) :=
  gets (λ w, rec_data (record_at state w)).

(** [state.update_data(k1=v1, ...)] *)
Definition update_data (state : FSMContext) (kw : list (string * value)) : M unit :=
  d ← get_data state;
  set_data state (foldl (λ acc kv, <[kv.1 := kv.2]> acc) d kw).

(** [state.clear()] *)
Definition clear (state : FSMContext) : M unit :=
  set_state state None ;; set_data state ∅.

(** [data[key]] *)
Definition getitem (data : gmap string value) (key : string) : M value :=
  match data !! key with
  | Some v => mret v
  | None => raise (KeyError key)
  end.

(** The world after [init_db] has run on a new database file: both tables
    exist and are empty, no dialogue has started, nothing was sent. *)
Definition fresh : World :=
  {| users := []; posts := []; storage := ∅; outbox := [] |}.

(** [str(e)] *)
Definition exn_str (e : exn) : pystr :=
  match e with
  | AttributeError attr =>
      py "'NoneType' object has no attribute '" ++ py attr ++ py "'"
  | KeyError key => py "'" ++ py key ++ py "'"
  | TelegramError cause => cause
  end.

(** ** Texts of the replies *)

Definition txt_start : pystr :=
  Eval vm_compute in py "Привет! 👋" ++ [10%N] ++ py "Выбери действие:".
Definition txt_ask_channel : pystr :=
  Eval vm_compute in py "Отправь @username или ID канала:".
Definition txt_channel_saved_l : pystr := Eval vm_compute in py "✅ Канал ".
Definition txt_channel_saved_r : pystr := Eval vm_compute in py " привязан.".
Definition txt_channel_saved (channel_id : pystr) : pystr :=
  txt_channel_saved_l ++ channel_id ++ txt_channel_saved_r.
Arguments txt_channel_saved : simpl never.
Definition txt_link_first : pystr :=
  Eval vm_compute in py "❌ Сначала привяжи канал через кнопку '📌 Привязать канал'".
Definition txt_ask_text : pystr :=
  Eval vm_compute in py "Отправь текст поста:".
Definition txt_ask_media : pystr :=
  Eval vm_compute in py "Отправь фото/видео или напиши 'нет':".
Definition txt_ask_button : pystr :=
  Eval vm_compute in py "Хочешь кнопку? Напиши: Текст | https://ссылка или 'нет'".
Definition txt_bad_format : pystr :=
  Eval vm_compute in py "Неверный формат. Попробуй снова или напиши 'нет'".
Definition txt_ask_confirm : pystr :=
  Eval vm_compute in py "Опубликовать в канал?".
Definition txt_published : pystr :=
  Eval vm_compute in py "✅ Пост опубликован!".
Definition txt_publish_error_l : pystr :=
  Eval vm_compute in py "❌ Ошибка публикации: ".
Definition txt_publish_error (e : pystr) : pystr := txt_publish_error_l ++ e.
Arguments txt_publish_error : simpl never.
Definition txt_cancelled : pystr :=
  Eval vm_compute in py "❌ Публикация отменена.".

(** ** Keyboards *)

Definition data_set_channel : pystr := Eval vm_compute in py "set_channel".
Definition data_new_post : pystr := Eval vm_compute in py "new_post".
Definition data_confirm_yes : pystr := Eval vm_compute in py "confirm_yes".
Definition data_confirm_no : pystr := Eval vm_compute in py "confirm_no".

Definition main_menu : InlineKeyboardMarkup :=
  Eval vm_compute in
  [ [callback_button (py "📌 Привязать канал") data_set_channel];
    [callback_button (py "✏ Создать пост") data_new_post] ].

Definition confirm_menu : InlineKeyboardMarkup :=
  Eval vm_compute in
  [ [callback_button (py "✅ Опубликовать") data_confirm_yes];
    [callback_button (py "❌ Отменить") data_confirm_no] ].

(** [kb = None; if button_text and button_url: kb = InlineKeyboardMarkup(...)] *)
Definition url_keyboard (button_text button_url : value)
    : option InlineKeyboardMarkup :=
  match button_text, button_url with
  | Some (c1 :: r1), Some (c2 :: r2) =>
      Some [[url_button (c1 :: r1) (c2 :: r2)]]
  | _, _ => None
  end.

(** ** Handlers *)

Section Handlers.

(** [str.lower], whose case tables are CPython's. *)
Variable lower : pystr → pystr.

(** The Bot API as the handlers see it: a request is delivered ([None]) or
    raises with a cause. *)
Variable transport : Action → option pystr.

Definition send (a : Action) : M unit := λ w,
  match transport a with
  | None => (Return tt, with_outbox (outbox w ++ [a]) w)
  | Some cause => (Raise (TelegramError cause), w)
  end.

(** [message.answer(text, reply_markup=...)] *)
Definition answer (message : Message) (text : value)
    (reply_markup : option InlineKeyboardMarkup) : M unit :=
  send (send_message (chat_id (m_chat message)) text reply_markup).

(** [callback.message.answer(text, reply_markup=...)] *)
Definition callback_message_answer (callback : CallbackQuery) (text : value)
    (reply_markup : option InlineKeyboardMarkup) : M unit :=
  send (send_message (chat_id (cq_chat callback)) text reply_markup).

(** [callback.answer()] *)
Definition callback_answer (callback : CallbackQuery) : M unit :=
  send (answer_callback_query (cq_id callback)).

(** [message.text.attr(...)]: the text, or the [AttributeError] of [None]. *)
Definition text_for (message : Message) (attr : string) : M pystr :=
  match m_text message with
  | Some t => mret t
  | None => raise (AttributeError attr)
  end.

Definition start (message : Message) : M unit :=
  answer message (Some txt_start) (Some main_menu).

Definition cb_set_channel (callback : CallbackQuery) (state : FSMContext) : M unit :=
  callback_message_answer callback (Some txt_ask_channel) None ;;
  set_state state (Some PostForm.set_channel) ;;
  callback_answer callback.

Definition save_channel_id (message : Message) (state : FSMContext) : M unit :=
  t ← text_for message "strip";
  let channel_id := strip t in
  set_channel (m_from_user message) channel_id ;;
  answer message (Some (txt_channel_saved channel_id)) (Some main_menu) ;;
  clear state.

Definition cb_new_post (callback : CallbackQuery) (state : FSMContext) : M unit :=
  channel ← get_channel (cq_from_user callback);
  if truthy channel then
    callback_message_answer callback (Some txt_ask_text) None ;;
    set_state state (Some PostForm.text) ;;
    callback_answer callback
  else
    callback_message_answer callback (Some txt_link_first) None.

Definition get_text (message : Message) (state : FSMContext) : M unit :=
  update_data state [("text"%string, Some (m_html_text message))] ;;
  answer message (Some txt_ask_media) None ;;
  set_state state (Some PostForm.media).

(** The branches of [get_media] that choose [media_id]. *)
Definition media_id_of (message : Message) : M value :=
  match m_photo message with
  | Some (p :: ps) => mret (Some (List.last ps p))      (* photo[-1].file_id *)
  | _ =>
    match m_video message with
    | Some v => mret (Some v)
    | None =>
      t ← text_for message "lower";
      if bool_decide (lower t = NET) then mret None else mret None
    end
  end.

Definition get_media (message : Message) (state : FSMContext) : M unit :=
  media_id ← media_id_of message;
  update_data state [("media"%string, media_id)] ;;
  answer message (Some txt_ask_button) None ;;
  set_state state (Some PostForm.button).

(** [get_button] from [state.update_data] on, once the button is known. *)
Definition get_button_save (message : Message) (state : FSMContext)
    (button_text button_url : value) : M unit :=
  update_data state [("button_text"%string, button_text);
                     ("button_url"%string, button_url)] ;;
  data ← get_data state;
  text ← getitem data "text";
  media ← getitem data "media";
  save_post (m_from_user message) text media button_text button_url ;;
  let kb := url_keyboard button_text button_url in
  match media with
  | Some (c :: r) =>
      send (send_photo (chat_id (m_chat message)) (c :: r) text kb)
  | _ => answer message text kb
  end ;;
  answer message (Some txt_ask_confirm) (Some confirm_menu).

Definition get_button (message : Message) (state : FSMContext) : M unit :=
  t ← text_for message "lower";
  if bool_decide (lower t ≠ NET) then
    match unpack2 (split1 BAR t) with
    | Some (button_text, button_url) =>
        get_button_save message state
          (Some (strip button_text)) (Some (strip button_url))
    | None =>                                            (* except ValueError *)
        answer message (Some txt_bad_format) None
    end
  else get_button_save message state None None.

Definition cb_confirm_yes (callback : CallbackQuery) (state : FSMContext) : M unit :=
  post ← get_post (cq_from_user callback);
  channel ← get_channel (cq_from_user callback);
  match post, channel with
  | Some (text, media, button_text, button_url), Some (c :: r) =>
      let kb := url_keyboard button_text button_url in
      try_except
        (match media with
         | Some (m :: ms) =>
             send (send_photo (chat_str (c :: r)) (m :: ms) text kb)
         | _ => send (send_message (chat_str (c :: r)) text kb)
         end ;;
         callback_message_answer callback (Some txt_published) (Some main_menu))
        (λ e, callback_message_answer callback
                (Some (txt_publish_error (exn_str e))) (Some main_menu))
  | _, _ => mret tt
  end ;;
  clear state ;;
  callback_answer callback.

Definition cb_confirm_no (callback : CallbackQuery) (state : FSMContext) : M unit :=
  callback_message_answer callback (Some txt_cancelled) (Some main_menu) ;;
  clear state ;;
  callback_answer callback.

(** *** Dispatch

    An event goes to the first registered handler whose filter passes; the
    dispatcher reads the dialogue state of the event's chat and user before
    the filters run. *)

Inductive Filter :=
| Command_start                      (* Command("start") *)
| StateFilter (s : PostForm.State)   (* PostForm.<state> *)
| F_data (d : pystr).                (* F.data == d *)

(** [Command("start")], decided by the framework from the message. *)
Variable command_start : Message → bool.

Definition check_message (f : Filter) (raw_state : option PostForm.State)
    (message : Message) : bool :=
  match f with
  | Command_start => command_start message
  | StateFilter s => bool_decide (raw_state = Some s)
  | F_data _ => false
  end.

Definition check_callback (f : Filter) (raw_state : option PostForm.State)
    (callback : CallbackQuery) : bool :=
  match f with
  | Command_start => false
  | StateFilter s => bool_decide (raw_state = Some s)
  | F_data d => bool_decide (cq_data callback = Some d)
  end.

(** [@dp.message(...)] in registration order. *)
Definition message_handlers
    : list (Filter * (Message → FSMContext → M unit)) :=
  [ (Command_start, λ message _, start message);
    (StateFilter PostForm.set_channel, save_channel_id);
    (StateFilter PostForm.text, get_text);
    (StateFilter PostForm.media, get_media);
    (StateFilter PostForm.button, get_button) ].

(** [@dp.callback_query(...)] in registration order. *)
Definition callback_query_handlers
    : list (Filter * (CallbackQuery → FSMContext → M unit)) :=
  [ (F_data data_set_channel, cb_set_channel);
    (F_data data_new_post, cb_new_post);
    (F_data data_confirm_yes, cb_confirm_yes);
    (F_data data_confirm_no, cb_confirm_no) ].

Definition feed_message (message : Message) : M unit :=
  let state : FSMContext := (m_chat message, m_from_user message) in
  raw_state ← gets (λ w, rec_state (record_at state w));
  match List.find (λ h, check_message h.1 raw_state message)
                  message_handlers with
  | Some (_, handler) => handler message state
  | None => mret tt
  end.

Definition feed_callback_query (callback : CallbackQuery) : M unit :=
  let state : FSMContext := (cq_chat callback, cq_from_user callback) in
  raw_state ← gets (λ w, rec_state (record_at state w));
  match List.find (λ h, check_callback h.1 raw_state callback)
                  callback_query_handlers with
  | Some (_, handler) => handler callback state
  | None => mret tt
  end.

Inductive Update :=
| message_update (message : Message)
| callback_query_update (callback : CallbackQuery).

Definition feed_update (u : Update) : M unit :=
  match u with
  | message_update message => feed_message message
  | callback_query_update callback => feed_callback_query callback
  end.

End Handlers.

(** ** Worlds the bot can be in

    One step is one update handled to completion, whatever the Bot API does
    with the requests; an exception ends the handler and keeps what it had
    written. *)

Inductive step (lower : pystr → pystr) (command_start : Message → bool)
    : World → World → Prop :=
| step_update transport u w :
    step lower command_start w
      (feed_update lower transport command_start u w).2.

Definition reachable (lower : pystr → pystr) (command_start : Message → bool)
    (w : World) : Prop :=
  rtc (step lower command_start) fresh w.

(** ** Vocabulary of the properties *)

(** The dialogue states of the specification. *)
Inductive DialogueState :=
| Idle | AwaitingChannel | AwaitingText | AwaitingMedia | AwaitingButton
| AwaitingConfirmation.

(** The dialogue state a stored state stands for.  [PostForm] has four
    states and the storage holds one of them or [None]. *)
Definition dialogue_state (raw_state : option PostForm.State) : DialogueState :=
  match raw_state with
  | None => Idle
  | Some PostForm.set_channel => AwaitingChannel
  | Some PostForm.text => AwaitingText
  | Some PostForm.media => AwaitingMedia
  | Some PostForm.button => AwaitingButton
  end.

(** The rows of an operator in each table. *)
Definition links_of (user_id : Z) (w : World) : list users_row :=
  filter (λ r, u_user_id r = user_id) (users w).
Definition drafts_of (user_id : Z) (w : World) : list posts_row :=
  filter (λ r, p_user_id r = user_id) (posts w).

(** The preview [get_button] shows: a photo with caption when the draft has
    media, a text message otherwise. *)
Definition preview_request (message : Message)
    (text media button_text button_url : value) : Action :=
  match media with
  | Some (c :: r) =>
      send_photo (chat_id (m_chat message)) (c :: r) text
        (url_keyboard button_text button_url)
  | _ =>
      send_message (chat_id (m_chat message)) text
        (url_keyboard button_text button_url)
  end.

(** The request that publishes a draft to a channel. *)
Definition publish_request (channel : pystr)
    (text media button_text button_url : value) : Action :=
  match media with
  | Some (m :: ms) =>
      send_photo (chat_str channel) (m :: ms) text
        (url_keyboard button_text button_url)
  | _ =>
      send_message (chat_str channel) text
        (url_keyboard button_text button_url)
  end.

(** Some message reached the operator's chat among the requests [w'] has
    beyond those of [w]. *)
Definition operator_told (chat : Z) (w w' : World) : Prop :=
  ∃ text kb,
    send_message (chat_id chat) text kb ∈ drop (length (outbox w)) (outbox w').

(** ** Concrete runs

    The objects of the examples below: operator 7 in a private chat, the
    channel ["@mychannel"], a Bot API that delivers everything and one whose
    channel cannot be reached. *)

(** [str.lower] on Basic Latin and Cyrillic, other code points unchanged. *)
Definition lower_basic (s : pystr) : pystr :=
  (λ c, if ((0x41 <=? c) && (c <=? 0x5A) || (0x410 <=? c) && (c <=? 0x42F))%N
        then (c + 32)%N
        else if ((0x400 <=? c) && (c <=? 0x40F))%N then (c + 80)%N else c)
  <$> s.

Definition deliver_all : Action → option pystr := λ _, None.

Definition channel_unreachable (cause : pystr) : Action → option pystr := λ a,
  match a with
  | send_message (chat_str _) _ _ | send_photo (chat_str _) _ _ _ => Some cause
  | _ => None
  end.

(** A Bot API that refuses every request, as when the network is down. *)
Definition refuse_all (cause : pystr) : Action → option pystr := λ _, Some cause.

Definition no_command : Message → bool := λ _, false.

(** A text message of operator 7 without formatting entities: its
    [html_text] is the text with the HTML special characters escaped. *)
Definition text_message (t : pystr) : Message :=
  {| m_from_user := 7; m_chat := 7; m_text := Some t;
     m_html_text := html_quote t; m_photo := None; m_video := None |}.

Definition press (data : pystr) : CallbackQuery :=
  {| cq_id := py "1"; cq_from_user := 7; cq_chat := 7; cq_data := Some data |}.

Definition my_channel : users_row :=
  {| u_user_id := 7; u_channel_id := py "@mychannel" |}.

Definition hello_draft : posts_row :=
  {| p_user_id := 7; p_text := Some (py "Hello"); p_media := None;
     p_button_text := Some (py "Buy");
     p_button_url := Some (py "https://example.com") |}.

(** A draft with a photo and no button. *)
Definition photo_draft : posts_row :=
  {| p_user_id := 7; p_text := Some (py "Hello");
     p_media := Some (py "photo-file-id");
     p_button_text := None; p_button_url := None |}.

(** Operator 7 at the given step, with text ["Hello"] and no media entered. *)
Definition composing (st : option PostForm.State) (drafts : list posts_row) : World :=
  {| users := [my_channel]; posts := drafts;
     storage := {[ (7, 7) := {| rec_state := st;
                                rec_data := {[ "text"%string := Some (py "Hello");
                                               "media"%string := None ]} |} ]};
     outbox := [] |}.

(** The two end-to-end dialogues of the specification, as updates. *)
Definition scenario1 : list Update :=
  [ callback_query_update (press data_set_channel);
    message_update (text_message (py "@mychannel"));
    callback_query_update (press data_new_post);
    message_update (text_message (py "Hello"));
    message_update (text_message (py "Нет"));
    message_update (text_message (py "Buy | https://example.com"));
    callback_query_update (press data_confirm_yes) ].

Definition scenario2 : list Update :=
  [ callback_query_update (press data_set_channel);
    message_update (text_message (py "@mychannel"));
    callback_query_update (press data_new_post);
    message_update (text_message (py "Hello"));
    message_update (text_message (py "нет"));
    message_update (text_message (py "nolinkhere"));
    message_update (text_message (py "нет")) ].

Definition feed_all (us : list Update) (w : World) : World :=
  foldl (λ w u, (feed_update lower_basic deliver_all no_command u w).2) w us.

(** ** Predicates on computations *)

(** The tables between two updates: one link per operator (the primary key
    of [users]) and at most one draft per operator. *)
Definition table_inv (w : World) : Prop :=
  NoDup (u_user_id <$> users w)
  ∧ ∀ u, (length (drafts_of u w) ≤ 1)%nat.

Definition keeps {A} (m : M A) : Prop := ∀ w, table_inv w → table_inv (m w).2.

(** ** Vocabulary of the dispatcher properties *)

(** The dialogue an update belongs to, and the operator it comes from. *)
Definition key_of (u : Update) : FSMContext :=
  match u with
  | message_update message => (m_chat message, m_from_user message)
  | callback_query_update callback => (cq_chat callback, cq_from_user callback)
  end.

Definition user_of (u : Update) : Z :=
  match u with
  | message_update message => m_from_user message
  | callback_query_update callback => cq_from_user callback
  end.

(** A computation [preserves] an observation of the world when running it
    never changes what is observed, whether it returns or raises. *)
Definition preserves {X A} (f : World → X) (m : M A) : Prop :=
  ∀ w, f (m w).2 = f w.

(** The exceptions a computation can end with all satisfy [P]. *)
Definition raises_only {A} (P : exn → Prop) (m : M A) : Prop :=
  ∀ w e w', m w = (Raise e, w') → P e.

Definition not_KeyError (e : exn) : Prop := ∀ key, e ≠ KeyError key.

(** What a dialogue needs at each step for the next handler to find its
    data: the text from the media step on, the media at the button step. *)
Definition session_ok (r : MemoryStorageRecord) : Prop :=
  match rec_state r with
  | Some PostForm.media => is_Some (rec_data r !! "text"%string)
  | Some PostForm.button =>
      is_Some (rec_data r !! "text"%string)
      ∧ is_Some (rec_data r !! "media"%string)
  | _ => True
  end.

Definition sessions_ok (w : World) : Prop := ∀ k, session_ok (record_at k w).

(** A Bot API that delivers everything but the "published" notice. *)
Definition notice_lost (cause : pystr) : Action → option pystr := λ a,
  match a with
  | send_message (chat_id _) (Some t) _ =>
      if bool_decide (t = txt_published) then Some cause else None
  | _ => None
  end.

(** A Bot API that refuses every message to a numeric chat. *)
Definition replies_refused (cause : pystr) : Action → option pystr := λ a,
  match a with
  | send_message (chat_id _) _ _ | send_photo (chat_id _) _ _ _ => Some cause
  | _ => None
  end.

(** The handler registered behind each state filter. *)
Definition state_handler (lower : pystr → pystr)
    (transport : Action → option pystr) (s : PostForm.State)
    : Message → FSMContext → M unit :=
  match s with
  | PostForm.set_channel => save_channel_id transport
  | PostForm.text => get_text transport
  | PostForm.media => get_media lower transport
  | PostForm.button => get_button lower transport
  end.


(** A text message without formatting entities, whose [html_text] is the
    escaped text, and a button press. *)
Definition plain_message (user chat : Z) (t : pystr) : Message :=
  {| m_from_user := user; m_chat := chat; m_text := Some t;
     m_html_text := html_quote t; m_photo := None; m_video := None |}.


(** A command filter that passes the bare text ["/start"]. *)
Definition slash_start : Message → bool := λ m,
  bool_decide (m_text m = Some (py "/start")).

(** A photo in two sizes, with a caption and no text. *)
Definition photo_message : Message :=
  {| m_from_user := 7; m_chat := 7; m_text := None;
     m_html_text := py "caption";
     m_photo := Some [py "small"; py "large"]; m_video := None |}.

(** * Properties *)

(** ** Strings *)

Lemma partition_app sep (a b : pystr) :
  sep ∉ a → partition sep (a ++ sep :: b) = Some (a, b).
Proof.
  induction a as [|c a IH]; intros Hn; simpl.
  - by rewrite N.eqb_refl.
  - apply not_elem_of_cons in Hn as [Hc Ha].
    destruct (N.eqb_spec c sep) as [->|_]; [done|].
    by rewrite IH.
Qed.

Lemma partition_None sep (s : pystr) : sep ∉ s → partition sep s = None.
Proof.
  induction s as [|c s IH]; intros Hn; simpl; [done|].
  apply not_elem_of_cons in Hn as [Hc Hs].
  destruct (N.eqb_spec c sep) as [->|_]; [done|].
  by rewrite IH.
Qed.

Lemma partition_Some sep (s a b : pystr) :
  partition sep s = Some (a, b) → s = a ++ sep :: b ∧ sep ∉ a.
Proof.
  revert a; induction s as [|c s IH]; intros a; simpl; [done|].
  destruct (N.eqb_spec c sep) as [->|Hne].
  - intros [= <- <-]. split; [done|]. apply not_elem_of_nil.
  - destruct (partition sep s) as [[a' b']|] eqn:E; [|done].
    intros [= <- <-]. destruct (IH a' eq_refl) as [-> Hn].
    split; [done|]. apply not_elem_of_cons. split; [congruence|done].
Qed.

Lemma unpack2_split1_app (a b : pystr) :
  BAR ∉ a → unpack2 (split1 BAR (a ++ BAR :: b)) = Some (a, b).
Proof. intros H. unfold split1. by rewrite partition_app. Qed.

Lemma unpack2_split1_None (s : pystr) :
  BAR ∉ s → unpack2 (split1 BAR s) = None.
Proof. intros H. unfold split1. by rewrite partition_None. Qed.

Lemma NET_no_BAR : BAR ∉ NET.
Proof. unfold NET, BAR. rewrite !not_elem_of_cons. split_and!; try done. apply not_elem_of_nil. Qed.

Lemma lower_basic_keeps_BAR (s : pystr) : BAR ∈ s → BAR ∈ lower_basic s.
Proof.
  intros H. unfold lower_basic. apply list_elem_of_fmap. by exists BAR.
Qed.

(** ** Tables *)

Lemma rows_delete_posts u (t : list posts_row) :
  filter (λ r, p_user_id r = u) (delete_from_posts u t) = [].
Proof.
  unfold delete_from_posts. induction t as [|r t IH]; [done|].
  rewrite (filter_cons (λ r, p_user_id r ≠ u)).
  destruct (decide (p_user_id r ≠ u)) as [Hne|Heq]; [|done].
  rewrite (filter_cons (λ r, p_user_id r = u)).
  by destruct (decide (p_user_id r = u)).
Qed.

Lemma rows_delete_posts_ne u u' (t : list posts_row) :
  u' ≠ u →
  filter (λ r, p_user_id r = u') (delete_from_posts u t)
  = filter (λ r, p_user_id r = u') t.
Proof.
  intros Hne. unfold delete_from_posts. induction t as [|r t IH]; [done|].
  rewrite (filter_cons (λ r, p_user_id r ≠ u)), (filter_cons (λ r, p_user_id r = u')).
  destruct (decide (p_user_id r ≠ u)) as [H1|H1].
  - rewrite (filter_cons (λ r, p_user_id r = u')). by rewrite IH.
  - destruct (decide (p_user_id r = u')); [lia|done].
Qed.

Lemma rows_replace_posts (r : posts_row) (t : list posts_row) :
  filter (λ r', p_user_id r' = p_user_id r)
         (insert_into_posts r (delete_from_posts (p_user_id r) t)) = [r].
Proof.
  unfold insert_into_posts. rewrite filter_app, rows_delete_posts.
  rewrite filter_cons. by destruct (decide (p_user_id r = p_user_id r)).
Qed.

Lemma rows_replace_posts_ne u' (r : posts_row) (t : list posts_row) :
  u' ≠ p_user_id r →
  filter (λ r', p_user_id r' = u')
         (insert_into_posts r (delete_from_posts (p_user_id r) t))
  = filter (λ r', p_user_id r' = u') t.
Proof.
  intros Hne. unfold insert_into_posts.
  rewrite filter_app, rows_delete_posts_ne by done.
  rewrite filter_cons. destruct (decide (p_user_id r = u')); [lia|].
  by rewrite app_nil_r.
Qed.

Lemma rows_replace_users u c (t : list users_row) :
  filter (λ r, u_user_id r = u) (insert_or_replace_users u c t)
  = [{| u_user_id := u; u_channel_id := c |}].
Proof.
  unfold insert_or_replace_users. rewrite filter_app.
  replace (filter (λ r, u_user_id r = u) (filter (λ r, u_user_id r ≠ u) t))
    with (@nil users_row).
  - rewrite filter_cons. simpl. by destruct (decide (u = u)).
  - induction t as [|r t IH]; [done|].
    rewrite (filter_cons (λ r, u_user_id r ≠ u)).
    destruct (decide (u_user_id r ≠ u)); [|done].
    rewrite (filter_cons (λ r, u_user_id r = u)).
    by destruct (decide (u_user_id r = u)).
Qed.

Lemma rows_replace_users_ne u u' c (t : list users_row) :
  u' ≠ u →
  filter (λ r, u_user_id r = u') (insert_or_replace_users u c t)
  = filter (λ r, u_user_id r = u') t.
Proof.
  intros Hne. unfold insert_or_replace_users. rewrite filter_app.
  rewrite filter_cons. simpl. destruct (decide (u = u')); [lia|].
  rewrite app_nil_r. induction t as [|r t IH]; [done|].
  rewrite (filter_cons (λ r, u_user_id r ≠ u)), (filter_cons (λ r, u_user_id r = u')).
  destruct (decide (u_user_id r ≠ u)).
  - rewrite (filter_cons (λ r, u_user_id r = u')). by rewrite IH.
  - destruct (decide (u_user_id r = u')); [lia|done].
Qed.

Lemma users_keys_NoDup u c (t : list users_row) :
  NoDup (u_user_id <$> t) → NoDup (u_user_id <$> insert_or_replace_users u c t).
Proof.
  intros Hnd. unfold insert_or_replace_users. rewrite fmap_app. simpl.
  apply NoDup_app. split_and!.
  - induction t as [|r t IH]; [constructor|].
    simpl in Hnd. apply NoDup_cons in Hnd as [Hr Ht].
    rewrite filter_cons. destruct (decide (u_user_id r ≠ u)); [|by apply IH].
    simpl. apply NoDup_cons. split; [|by apply IH].
    intros Hin. apply Hr. apply list_elem_of_fmap in Hin as (r' & -> & Hin).
    apply list_elem_of_fmap. exists r'. split; [done|].
    by apply list_elem_of_filter in Hin as [_ ?].
  - intros k Hin Hk. apply list_elem_of_singleton in Hk as ->.
    apply list_elem_of_fmap in Hin as (r' & Heq & Hin).
    apply list_elem_of_filter in Hin as [Hne _]. congruence.
  - apply NoDup_singleton.
Qed.

Lemma NoDup_keys_one_row u (t : list users_row) :
  NoDup (u_user_id <$> t) →
  (length (filter (λ r, u_user_id r = u) t) ≤ 1)%nat.
Proof.
  induction t as [|r t IH]; intros Hnd; [cbn; lia|].
  cbn in Hnd. apply NoDup_cons in Hnd as [Hr Ht].
  rewrite filter_cons. destruct (decide (u_user_id r = u)) as [<-|]; [|by apply IH].
  destruct (filter (λ r', u_user_id r' = u_user_id r) t) as [|r' l] eqn:E;
    [cbn; lia|].
  exfalso. assert (Hin : r' ∈ filter (λ r', u_user_id r' = u_user_id r) t)
    by (rewrite E; left).
  apply list_elem_of_filter in Hin as [Heq Hin]. apply Hr.
  rewrite <- Heq. apply list_elem_of_fmap. by exists r'.
Qed.

(** ** Running handlers *)

Ltac run_unfold :=
  unfold clear, update_data, save_post, get_post, set_channel, get_channel,
    getitem, answer, callback_message_answer, callback_answer, text_for;
  unfold set_state, set_data, get_data, gets, modify, raise, try_except, send,
    mbind, M_bind, mret, M_ret;
  unfold with_users, with_posts, with_storage, with_outbox; cbn.

(** Closes a decidable closed goal by evaluation. *)
Ltac by_compute :=
  match goal with
  | |- ?P => apply (@bool_decide_unpack P _); vm_compute; exact I
  end.

Lemma record_at_insert (state : FSMContext) (r : MemoryStorageRecord)
    (us : list users_row) (ps : list posts_row)
    (s : gmap (Z * Z) MemoryStorageRecord) (ob : list Action) :
  record_at state
    {| users := us; posts := ps; storage := <[state := r]> s; outbox := ob |} = r.
Proof. unfold record_at. cbn. by rewrite lookup_insert_eq. Qed.

Lemma clear_run state w :
  clear state w = (Return tt, with_storage (<[state := blank]> (storage w)) w).
Proof.
  run_unfold. rewrite record_at_insert. cbn. by rewrite insert_insert_eq.
Qed.

(** [get_button] from [state.update_data] on, when the dialogue holds the
    text and the media: the draft is replaced and the dialogue gets the
    button fields before anything is sent. *)
Lemma get_button_save_run transport message state bt bu w text media :
  rec_data (record_at state w) !! "text"%string = Some text →
  rec_data (record_at state w) !! "media"%string = Some media →
  ∃ r w',
    get_button_save transport message state bt bu w = (r, w')
    ∧ users w' = users w
    ∧ posts w' = insert_into_posts
        {| p_user_id := m_from_user message; p_text := text; p_media := media;
           p_button_text := bt; p_button_url := bu |}
        (delete_from_posts (m_from_user message) (posts w))
    ∧ storage w'
      = <[state := {| rec_state := rec_state (record_at state w);
                      rec_data := <["button_url"%string := bu]>
                                    (<["button_text"%string := bt]>
                                       (rec_data (record_at state w))) |}]>
          (storage w)
    ∧ (transport (preview_request message text media bt bu) = None →
       transport (send_message (chat_id (m_chat message))
                    (Some txt_ask_confirm) (Some confirm_menu)) = None →
       r = Return tt
       ∧ outbox w'
         = outbox w ++ [preview_request message text media bt bu;
                        send_message (chat_id (m_chat message))
                          (Some txt_ask_confirm) (Some confirm_menu)]).
Proof.
  intros Ht Hm.
  unfold get_button_save, preview_request. run_unfold.
  rewrite record_at_insert. cbn.
  rewrite !lookup_insert_ne by done. rewrite Ht, Hm.
  destruct media as [[|c m]|]; repeat case_match; simplify_eq;
    eexists _, _; (split; [reflexivity|]); cbn;
    (split_and!; [done..|]); intros; simplify_eq; try done.
  all: split; [done|]; by rewrite <- app_assoc.
Qed.

(** Whatever the dialogue holds, [get_button_save] either stops before the
    table is written or replaces the operator's draft by one with the given
    button fields. *)
Lemma get_button_save_posts transport message state bt bu w :
  let w' := (get_button_save transport message state bt bu w).2 in
  posts w' = posts w
  ∨ ∃ text media,
      posts w' = insert_into_posts
        {| p_user_id := m_from_user message; p_text := text; p_media := media;
           p_button_text := bt; p_button_url := bu |}
        (delete_from_posts (m_from_user message) (posts w)).
Proof.
  unfold get_button_save. run_unfold. rewrite record_at_insert. cbn.
  repeat case_match; simplify_eq; cbn; eauto.
Qed.

(** ** Dispatch of the confirmation buttons *)

Lemma dispatch_confirm_yes transport callback w :
  cq_data callback = Some data_confirm_yes →
  feed_callback_query transport callback w
  = cb_confirm_yes transport callback (cq_chat callback, cq_from_user callback) w.
Proof.
  intros H. unfold feed_callback_query, callback_query_handlers.
  unfold gets, mbind at 1, M_bind. cbn [List.find check_callback fst snd].
  rewrite H.
  rewrite (bool_decide_eq_false_2 (Some data_confirm_yes = Some data_set_channel))
    by done.
  rewrite (bool_decide_eq_false_2 (Some data_confirm_yes = Some data_new_post))
    by done.
  by rewrite (bool_decide_eq_true_2 (Some data_confirm_yes = Some data_confirm_yes)).
Qed.

Lemma dispatch_confirm_no transport callback w :
  cq_data callback = Some data_confirm_no →
  feed_callback_query transport callback w
  = cb_confirm_no transport callback (cq_chat callback, cq_from_user callback) w.
Proof.
  intros H. unfold feed_callback_query, callback_query_handlers.
  unfold gets, mbind at 1, M_bind. cbn [List.find check_callback fst snd].
  rewrite H.
  rewrite (bool_decide_eq_false_2 (Some data_confirm_no = Some data_set_channel))
    by done.
  rewrite (bool_decide_eq_false_2 (Some data_confirm_no = Some data_new_post))
    by done.
  rewrite (bool_decide_eq_false_2 (Some data_confirm_no = Some data_confirm_yes))
    by done.
  by rewrite (bool_decide_eq_true_2 (Some data_confirm_no = Some data_confirm_no)).
Qed.

(** ** The runs of the confirmation buttons *)

(** The run of [cb_confirm_yes] for an operator with a draft and a channel,
    by what the Bot API does with each request: the post goes to the channel
    first; its failure, or the failure of the notice that follows it in the
    same [try], is reported to the operator from the [except] branch; a
    refused report ends the handler before [state.clear()]. *)
Lemma cb_confirm_yes_run transport callback state w
    (draft : posts_row) (link : users_row) :
  fetchone_posts (cq_from_user callback) (posts w) = Some draft →
  fetchone_users (cq_from_user callback) (users w) = Some link →
  u_channel_id link ≠ [] →
  let publish :=
    publish_request (u_channel_id link) (p_text draft) (p_media draft)
      (p_button_text draft) (p_button_url draft) in
  let reply (text : pystr) :=
    send_message (chat_id (cq_chat callback)) (Some text) (Some main_menu) in
  let ack := answer_callback_query (cq_id callback) in
  let finish (sent : list Action) : outcome unit * World :=
    match transport ack with
    | None =>
        (Return tt,
         {| users := users w; posts := posts w;
            storage := <[state := blank]> (storage w);
            outbox := outbox w ++ sent ++ [ack] |})
    | Some c =>
        (Raise (TelegramError c),
         {| users := users w; posts := posts w;
            storage := <[state := blank]> (storage w);
            outbox := outbox w ++ sent |})
    end in
  let report (sent : list Action) (c : pystr) : outcome unit * World :=
    match transport (reply (txt_publish_error c)) with
    | None => finish (sent ++ [reply (txt_publish_error c)])
    | Some c' =>
        (Raise (TelegramError c'),
         {| users := users w; posts := posts w; storage := storage w;
            outbox := outbox w ++ sent |})
    end in
  cb_confirm_yes transport callback state w
  = match transport publish with
    | None =>
        match transport (reply txt_published) with
        | None => finish [publish; reply txt_published]
        | Some c => report [publish] c
        end
    | Some c => report [] c
    end.
Proof.
  intros Hd Hl Hne publish reply ack finish report.
  unfold cb_confirm_yes. run_unfold. rewrite Hd, Hl. cbn.
  destruct (u_channel_id link) as [|c cs] eqn:Ec; [done|].
  subst publish reply ack finish report. unfold publish_request.
  destruct w as [us ps s ob]. cbn.
  destruct (p_media draft) as [[|m ms]|];
    repeat (case_match; cbn [exn_str] in *; simplify_eq; cbn);
    rewrite ?record_at_insert; cbn;
    rewrite ?insert_insert_eq, <- ?app_assoc, ?app_nil_r;
    first [done | congruence].
Qed.

(** The run of [cb_confirm_no]: a refused notice ends the handler before
    [state.clear()]. *)
Lemma cb_confirm_no_exact transport callback state w :
  let notice :=
    send_message (chat_id (cq_chat callback)) (Some txt_cancelled)
      (Some main_menu) in
  let ack := answer_callback_query (cq_id callback) in
  cb_confirm_no transport callback state w
  = match transport notice with
    | None =>
        match transport ack with
        | None =>
            (Return tt,
             {| users := users w; posts := posts w;
                storage := <[state := blank]> (storage w);
                outbox := outbox w ++ [notice; ack] |})
        | Some c =>
            (Raise (TelegramError c),
             {| users := users w; posts := posts w;
                storage := <[state := blank]> (storage w);
                outbox := outbox w ++ [notice] |})
        end
    | Some c => (Raise (TelegramError c), w)
    end.
Proof.
  intros notice ack. unfold cb_confirm_no. run_unfold. subst notice ack.
  repeat (case_match; simplify_eq; cbn);
    rewrite ?record_at_insert; cbn;
    rewrite ?insert_insert_eq, <- ?app_assoc; done.
Qed.

(** The run of [cb_confirm_yes] for an operator without a draft or without
    a non-empty channel. *)
Lemma cb_confirm_yes_skips transport callback state w :
  fetchone_posts (cq_from_user callback) (posts w) = None
  ∨ fetchone_users (cq_from_user callback) (users w) = None
  ∨ (∃ link, fetchone_users (cq_from_user callback) (users w) = Some link
             ∧ u_channel_id link = []) →
  let ack := answer_callback_query (cq_id callback) in
  cb_confirm_yes transport callback state w
  = match transport ack with
    | None =>
        (Return tt,
         {| users := users w; posts := posts w;
            storage := <[state := blank]> (storage w);
            outbox := outbox w ++ [ack] |})
    | Some c =>
        (Raise (TelegramError c),
         {| users := users w; posts := posts w;
            storage := <[state := blank]> (storage w);
            outbox := outbox w |})
    end.
Proof.
  intros Hmiss ack.
  assert (Hrun : cb_confirm_yes transport callback state w
                 = (clear state ;; callback_answer transport callback) w).
  { unfold cb_confirm_yes. unfold get_post, get_channel, gets,
      mbind at 1 2 3, M_bind. cbn.
    destruct Hmiss as [-> | [-> | (link & -> & Hl)]]; cbn.
    - done.
    - by destruct (fetchone_posts _ _) as [?|].
    - rewrite Hl. by destruct (fetchone_posts _ _) as [?|]. }
  rewrite Hrun. unfold mbind, M_bind. rewrite clear_run.
  run_unfold. subst ack. by destruct (transport _).
Qed.

(** ** The tables of every reachable world *)

Lemma keeps_ret {A} (a : A) : keeps (mret a).
Proof. by intros w. Qed.

Lemma keeps_raise {A} (e : exn) : keeps (@raise A e).
Proof. by intros w. Qed.

Lemma keeps_bind {A B} (m : M A) (f : A → M B) :
  keeps m → (∀ a, keeps (f a)) → keeps (m ≫= f).
Proof.
  intros Hm Hf w Hw. unfold mbind, M_bind. specialize (Hm w Hw).
  destruct (m w) as [[a|e] w1]; [by apply Hf|done].
Qed.

Lemma keeps_try_except {A} (body : M A) (handler : exn → M A) :
  keeps body → (∀ e, keeps (handler e)) → keeps (try_except body handler).
Proof.
  intros Hm Hh w Hw. unfold try_except. specialize (Hm w Hw).
  destruct (body w) as [[a|e] w1]; [done|by apply Hh].
Qed.

Lemma keeps_gets {A} (f : World → A) : keeps (gets f).
Proof. by intros w. Qed.

Lemma keeps_send transport (a : Action) : keeps (send transport a).
Proof. intros w Hw. unfold send. by destruct (transport a). Qed.

Lemma keeps_set_state state st : keeps (set_state state st).
Proof. by intros w. Qed.

Lemma keeps_set_data state d : keeps (set_data state d).
Proof. by intros w. Qed.

Lemma keeps_update_data state kw : keeps (update_data state kw).
Proof. by intros w. Qed.

Lemma keeps_clear state : keeps (clear state).
Proof. by intros w. Qed.

Lemma keeps_getitem data key : keeps (getitem data key).
Proof. intros w Hw. unfold getitem. by destruct (data !! key). Qed.

Lemma keeps_set_channel u c : keeps (set_channel u c).
Proof.
  intros w [Hu Hp]. split; [|done]. cbn. by apply users_keys_NoDup.
Qed.

Lemma keeps_save_post u text media bt bu : keeps (save_post u text media bt bu).
Proof.
  intros w [Hu Hp]. split; [done|]. intros u'. unfold drafts_of. cbn.
  set (r := {| p_user_id := u; p_text := text; p_media := media;
               p_button_text := bt; p_button_url := bu |}).
  destruct (decide (u' = u)) as [->|Hne].
  - by rewrite (rows_replace_posts r).
  - rewrite (rows_replace_posts_ne u' r) by done. apply Hp.
Qed.

Lemma keeps_text_for message attr : keeps (text_for message attr).
Proof. intros w Hw. unfold text_for. by destruct (m_text message). Qed.

Ltac keeps_step :=
  match goal with
  | |- keeps (_ ≫= _) => apply keeps_bind; [|intros ?]
  | |- keeps (try_except _ _) => apply keeps_try_except; [|intros ?]
  | |- keeps (mret _) => apply keeps_ret
  | |- keeps (gets _) => apply keeps_gets
  | |- keeps (send _ _) => apply keeps_send
  | |- keeps (text_for _ _) => apply keeps_text_for
  | |- keeps (set_state _ _) => apply keeps_set_state
  | |- keeps (update_data _ _) => apply keeps_update_data
  | |- keeps (get_data _) => apply keeps_gets
  | |- keeps (clear _) => apply keeps_clear
  | |- keeps (getitem _ _) => apply keeps_getitem
  | |- keeps (set_channel _ _) => apply keeps_set_channel
  | |- keeps (save_post _ _ _ _ _) => apply keeps_save_post
  | |- keeps (get_post _) => apply keeps_gets
  | |- keeps (get_channel _) => apply keeps_gets
  | |- keeps (match ?x with _ => _ end) => destruct x
  | |- keeps (if ?x then _ else _) => destruct x
  end.

Ltac keeps_auto :=
  unfold answer, callback_message_answer, callback_answer;
  repeat keeps_step.

Lemma keeps_get_button_save transport message state bt bu :
  keeps (get_button_save transport message state bt bu).
Proof. unfold get_button_save. keeps_auto. Qed.

Lemma keeps_message_handlers lower transport message state h :
  In h (message_handlers lower transport) → keeps (h.2 message state).
Proof.
  unfold message_handlers. intros Hin. cbn in Hin.
  repeat (destruct Hin as [<-|Hin]; [cbn [snd]|]); [..|done].
  - unfold start. keeps_auto.
  - unfold save_channel_id. keeps_auto.
  - unfold get_text. keeps_auto.
  - unfold get_media, media_id_of. keeps_auto.
  - unfold get_button. keeps_auto; apply keeps_get_button_save.
Qed.

Lemma keeps_callback_query_handlers transport callback state h :
  In h (callback_query_handlers transport) → keeps (h.2 callback state).
Proof.
  unfold callback_query_handlers. intros Hin. cbn in Hin.
  repeat (destruct Hin as [<-|Hin]; [cbn [snd]|]); [..|done].
  - unfold cb_set_channel. keeps_auto.
  - unfold cb_new_post. keeps_auto.
  - unfold cb_confirm_yes. keeps_auto.
  - unfold cb_confirm_no. keeps_auto.
Qed.

Lemma keeps_feed_update lower transport command_start u :
  keeps (feed_update lower transport command_start u).
Proof.
  destruct u as [message|callback]; cbn [feed_update].
  - unfold feed_message. apply keeps_bind; [apply keeps_gets|]. intros raw.
    destruct (List.find _ _) as [[f h]|] eqn:E; [|apply keeps_ret].
    apply List.find_some in E as [Hin _].
    exact (keeps_message_handlers _ _ _ _ _ Hin).
  - unfold feed_callback_query. apply keeps_bind; [apply keeps_gets|]. intros raw.
    destruct (List.find _ _) as [[f h]|] eqn:E; [|apply keeps_ret].
    apply List.find_some in E as [Hin _].
    exact (keeps_callback_query_handlers _ _ _ _ Hin).
Qed.

Lemma reachable_table_inv lower command_start w :
  reachable lower command_start w → table_inv w.
Proof.
  unfold reachable. revert w. apply (rtc_ind_r table_inv fresh).
  - split; [constructor|]. intros u. cbn. lia.
  - intros w1 w2 _ Hstep IH. destruct Hstep as [transport u w1].
    by apply keeps_feed_update.
Qed.

(** * The claims *)

(** ** The button step *)




(** C4.  For every text input to the button step without ["|"] that is not
    the decline word (["нет"] in the source, "none" in the specification,
    compared after [lower]): the only request is the re-prompt, which the
    operator gets when it is delivered; the tables and the whole dialogue
    storage are unchanged, so the state stays what it was (AwaitingButton at
    the button step), no draft is persisted and text and media are kept. *)
Theorem get_button_no_delimiter lower transport message state w (t : pystr) :
  m_text message = Some t → BAR ∉ t → lower t ≠ NET →
  let reprompt :=
    send_message (chat_id (m_chat message)) (Some txt_bad_format) None in
  ∃ r w',
    get_button lower transport message state w = (r, w')
    ∧ users w' = users w ∧ posts w' = posts w ∧ storage w' = storage w
    ∧ dialogue_state (rec_state (record_at state w'))
      = dialogue_state (rec_state (record_at state w))
    ∧ match transport reprompt with
      | None => r = Return tt ∧ outbox w' = outbox w ++ [reprompt]
      | Some cause => r = Raise (TelegramError cause) ∧ outbox w' = outbox w
      end.
Proof.
  intros Ht Hbar Hnet. unfold get_button. run_unfold. rewrite Ht.
  rewrite bool_decide_eq_true_2 by done.
  rewrite unpack2_split1_None by done.
  destruct (transport _) eqn:E; eexists _, _; (split; [reflexivity|]); cbn; done.
Qed.

(** The malformed input of scenario 2. *)
Lemma get_button_no_delimiter_witness :
  ∃ r w',
    get_button lower_basic deliver_all (text_message (py "nolinkhere")) (7, 7)
      (composing (Some PostForm.button) []) = (r, w')
    ∧ posts w' = [] ∧ r = Return tt
    ∧ dialogue_state (rec_state (record_at (7, 7) w')) = AwaitingButton.
Proof.
  destruct (get_button_no_delimiter lower_basic deliver_all
              (text_message (py "nolinkhere")) (7, 7)
              (composing (Some PostForm.button) []) (py "nolinkhere"))
    as (r & w' & Hrun & _ & Hp & Hs & Hd & Ho).
  - reflexivity.
  - by_compute.
  - vm_compute. discriminate.
  - exists r, w'. cbn in Ho. destruct Ho as [-> _].
    split_and!; [exact Hrun|exact Hp|reflexivity|exact Hd].
Defined.

(** C9, as stated, fails when present means a non-empty value, which is the
    reading of the handlers' own test [if button_text and button_url]: on
    the input ["Buy |"] the draft is persisted with the label ["Buy"] and the
    empty url, and the preview carries no button. *)
Lemma get_button_label_without_url :
  let w := composing (Some PostForm.button) [] in
  let '(r, w') := get_button lower_basic deliver_all
                    (text_message (py "Buy |")) (7, 7) w in
  let row := {| p_user_id := 7; p_text := Some (py "Hello"); p_media := None;
                p_button_text := Some (py "Buy"); p_button_url := Some [] |} in
  r = Return tt
  ∧ posts w' = [row]
  ∧ truthy (p_button_text row) = true
  ∧ truthy (p_button_url row) = false
  ∧ outbox w'
    = [ send_message (chat_id 7) (Some (py "Hello")) None;
        send_message (chat_id 7) (Some txt_ask_confirm) (Some confirm_menu) ].
Proof. vm_compute. split_and!; done. Qed.

(** C9, amended.  Whatever the input and the world, [get_button] leaves the
    drafts as they are or replaces the operator's draft by a row whose button
    text and button url are both [None], the text being the decline word
    after [lower], or both strings: the trimmed parts of the text before and
    after its first ["|"], of which either can be empty. *)
Theorem get_button_fields_paired lower transport message state w :
  let w' := (get_button lower transport message state w).2 in
  posts w' = posts w
  ∨ ∃ row,
      posts w' = insert_into_posts row
                   (delete_from_posts (m_from_user message) (posts w))
      ∧ p_user_id row = m_from_user message
      ∧ (p_button_text row = None ∧ p_button_url row = None
         ∧ (∃ t, m_text message = Some t ∧ lower t = NET)
         ∨ ∃ label url,
             m_text message = Some (label ++ BAR :: url)
             ∧ (BAR ∉ label)
             ∧ lower (label ++ BAR :: url) ≠ NET
             ∧ p_button_text row = Some (strip label)
             ∧ p_button_url row = Some (strip url)).
Proof.
  unfold get_button.
  destruct (m_text message) as [t|] eqn:Ht; [|left; by run_unfold; rewrite Ht].
  unfold text_for, mbind, M_bind. rewrite Ht. cbn.
  destruct (decide (lower t = NET)) as [Hnet|Hnet].
  - rewrite bool_decide_eq_false_2 by (by intros ?).
    destruct (get_button_save_posts transport message state None None w)
      as [H|(text & media & H)]; [by left|right].
    eexists. split; [exact H|]. cbn. split; [done|]. left. eauto.
  - rewrite bool_decide_eq_true_2 by done.
    unfold split1. destruct (partition BAR t) as [[bt bu]|] eqn:Hp; cbn.
    + apply partition_Some in Hp as [-> Hbar].
      destruct (get_button_save_posts transport message state
                  (Some (strip bt)) (Some (strip bu)) w) as [H|(text & media & H)];
        [by left|right].
      eexists. split; [exact H|]. cbn. split; [done|]. right.
      exists bt, bu. split_and!; done.
    + left. run_unfold. by destruct (transport _).
Qed.

(** ** The media step *)




(** ** Starting a post *)

(** C6.  For every operator without a row in [users], the "new post" button
    makes one request, the guidance, which the operator gets when it is
    delivered; the tables and the dialogue storage are unchanged, so an Idle
    dialogue stays Idle and no draft is created or changed. *)
Theorem new_post_without_channel transport callback state w :
  links_of (cq_from_user callback) w = [] →
  let guidance :=
    send_message (chat_id (cq_chat callback)) (Some txt_link_first) None in
  ∃ r w',
    cb_new_post transport callback state w = (r, w')
    ∧ users w' = users w ∧ posts w' = posts w ∧ storage w' = storage w
    ∧ dialogue_state (rec_state (record_at state w'))
      = dialogue_state (rec_state (record_at state w))
    ∧ match transport guidance with
      | None => r = Return tt ∧ outbox w' = outbox w ++ [guidance]
      | Some cause => r = Raise (TelegramError cause) ∧ outbox w' = outbox w
      end.
Proof.
  intros Hno guidance. unfold cb_new_post. run_unfold.
  unfold fetchone_users. unfold links_of in Hno. rewrite Hno. cbn.
  subst guidance.
  destruct (transport _) eqn:E; eexists _, _; (split; [reflexivity|]); done.
Qed.

(** Operator 7 presses "new post" on a new database. *)
Lemma new_post_without_channel_witness :
  ∃ r w',
    cb_new_post deliver_all (press data_new_post) (7, 7) fresh = (r, w')
    ∧ r = Return tt ∧ posts w' = []
    ∧ dialogue_state (rec_state (record_at (7, 7) w')) = Idle.
Proof.
  destruct (new_post_without_channel deliver_all (press data_new_post) (7, 7)
              fresh eq_refl)
    as (r & w' & Hrun & _ & Hp & _ & Hd & Hr & _).
  exists r, w'. split_and!; [exact Hrun|exact Hr|exact Hp|exact Hd].
Defined.

(** ** Confirmation *)

(** C2, as stated, fails: when the Bot API refuses every request, the send
    to the channel fails and so does the failure message to the operator.
    The handler raises from the [except] branch, before [state.clear()]:
    the operator gets nothing and the dialogue stays at the button step. *)
Lemma confirm_failure_unreported :
  let w := composing (Some PostForm.button) [hello_draft] in
  let transport := refuse_all (py "network is down") in
  let '(r, w') := cb_confirm_yes transport (press data_confirm_yes) (7, 7) w in
  transport (publish_request (py "@mychannel") (Some (py "Hello")) None
               (Some (py "Buy")) (Some (py "https://example.com")))
  = Some (py "network is down")
  ∧ r = Raise (TelegramError (py "network is down"))
  ∧ outbox w' = []
  ∧ ¬ operator_told 7 w w'
  ∧ rec_state (record_at (7, 7) w') = Some PostForm.button
  ∧ dialogue_state (rec_state (record_at (7, 7) w')) ≠ Idle
  ∧ posts w' = [hello_draft].
Proof.
  vm_compute. split_and!; try done.
  intros (text & kb & H). by apply elem_of_nil in H.
Qed.

(** C2, amended.  For every confirmation of an operator with a draft and a
    channel whose publish request fails with [cause]: the handler sends the
    operator the failure message, which ends with the cause.  When that
    message is delivered it is what the operator gets, the dialogue is blank
    again (Idle, as after a successful publish) and the callback is
    acknowledged; when it is refused the handler raises with the cause of
    the refusal, nothing is delivered and the dialogue storage is left as it
    was.  In both cases both tables, the draft row with them, are
    unchanged. *)
Theorem confirm_publish_failure transport callback state w
    (draft : posts_row) (link : users_row) (cause : pystr) :
  fetchone_posts (cq_from_user callback) (posts w) = Some draft →
  fetchone_users (cq_from_user callback) (users w) = Some link →
  u_channel_id link ≠ [] →
  let publish :=
    publish_request (u_channel_id link) (p_text draft) (p_media draft)
      (p_button_text draft) (p_button_url draft) in
  let report :=
    send_message (chat_id (cq_chat callback))
      (Some (txt_publish_error cause)) (Some main_menu) in
  let ack := answer_callback_query (cq_id callback) in
  transport publish = Some cause →
  ∃ r w',
    cb_confirm_yes transport callback state w = (r, w')
    ∧ cause `suffix_of` txt_publish_error cause
    ∧ posts w' = posts w ∧ users w' = users w
    ∧ fetchone_posts (cq_from_user callback) (posts w') = Some draft
    ∧ match transport report with
      | None =>
          storage w' = <[state := blank]> (storage w)
          ∧ dialogue_state (rec_state (record_at state w')) = Idle
          ∧ match transport ack with
            | None => r = Return tt ∧ outbox w' = outbox w ++ [report; ack]
            | Some c =>
                r = Raise (TelegramError c) ∧ outbox w' = outbox w ++ [report]
            end
      | Some refusal =>
          r = Raise (TelegramError refusal)
          ∧ outbox w' = outbox w
          ∧ storage w' = storage w
      end.
Proof.
  intros Hd Hl Hne publish report ack Hpub.
  rewrite (cb_confirm_yes_run transport callback state w draft link Hd Hl Hne).
  cbv zeta. subst publish report ack. rewrite Hpub.
  assert (Hsuf : cause `suffix_of` txt_publish_error cause)
    by (by exists txt_publish_error_l).
  destruct (transport (send_message _ _ _)) as [refusal|].
  - eexists _, _. split; [reflexivity|]. cbn. rewrite app_nil_r.
    split_and!; done.
  - destruct (transport (answer_callback_query _));
      eexists _, _; (split; [reflexivity|]); cbn;
      unfold record_at; cbn; rewrite lookup_insert_eq; split_and!; done.
Qed.

(** Scenario 3: the channel cannot be reached. *)
Lemma confirm_publish_failure_witness :
  ∃ r w',
    cb_confirm_yes (channel_unreachable (py "chat not found"))
      (press data_confirm_yes) (7, 7)
      (composing (Some PostForm.button) [hello_draft]) = (r, w')
    ∧ r = Return tt
    ∧ outbox w'
      = [send_message (chat_id 7)
           (Some (txt_publish_error (py "chat not found"))) (Some main_menu);
         answer_callback_query (py "1")]
    ∧ record_at (7, 7) w' = blank
    ∧ posts w' = [hello_draft].
Proof.
  destruct (confirm_publish_failure (channel_unreachable (py "chat not found"))
              (press data_confirm_yes) (7, 7)
              (composing (Some PostForm.button) [hello_draft])
              hello_draft my_channel (py "chat not found"))
    as (r & w' & Hrun & _ & Hp & _ & _ & Hrest).
  - reflexivity.
  - reflexivity.
  - vm_compute. discriminate.
  - reflexivity.
  - cbv beta iota delta [channel_unreachable] in Hrest.
    destruct Hrest as (Hs & _ & Hr & Ho).
    exists r, w'. split_and!; [exact Hrun|exact Hr|exact Ho| |exact Hp].
    unfold record_at. rewrite Hs. reflexivity.
Defined.

(** C7, as stated, fails: operator 7 confirms without a draft; no message
    goes to the operator's chat (the callback is only acknowledged) and the
    dialogue, which was at the button step, is reset to Idle. *)
Lemma confirm_without_draft_silent :
  let w := composing (Some PostForm.button) [] in
  let w' := (cb_confirm_yes deliver_all (press data_confirm_yes) (7, 7) w).2 in
  drafts_of 7 w = []
  ∧ ¬ operator_told 7 w w'
  ∧ outbox w' = [answer_callback_query (py "1")]
  ∧ dialogue_state (rec_state (record_at (7, 7) w)) = AwaitingButton
  ∧ dialogue_state (rec_state (record_at (7, 7) w')) = Idle.
Proof.
  split_and!; try reflexivity.
  intros (text & kb & H). vm_compute in H.
  apply list_elem_of_singleton in H. discriminate.
Qed.

(** C7, amended.  For every confirmation of an operator without a draft or
    without a row in [users]: nothing is published and no message goes to the
    operator's chat; the handler blanks the dialogue (Idle) and acknowledges
    the callback; the tables are unchanged. *)
Theorem confirm_missing_prerequisite transport callback state w :
  drafts_of (cq_from_user callback) w = []
  ∨ links_of (cq_from_user callback) w = [] →
  let ack := answer_callback_query (cq_id callback) in
  ∃ r w',
    cb_confirm_yes transport callback state w = (r, w')
    ∧ users w' = users w ∧ posts w' = posts w
    ∧ storage w' = <[state := blank]> (storage w)
    ∧ dialogue_state (rec_state (record_at state w')) = Idle
    ∧ ¬ operator_told (cq_chat callback) w w'
    ∧ match transport ack with
      | None => r = Return tt ∧ outbox w' = outbox w ++ [ack]
      | Some cause => r = Raise (TelegramError cause) ∧ outbox w' = outbox w
      end.
Proof.
  intros Hmiss ack.
  assert (Hrun : cb_confirm_yes transport callback state w
                 = (clear state ;; callback_answer transport callback) w).
  { unfold cb_confirm_yes. unfold get_post, get_channel, gets, fetchone_posts,
      fetchone_users, mbind at 1 2 3, M_bind. cbn.
    unfold drafts_of, links_of in Hmiss.
    destruct Hmiss as [-> | ->]; cbn; [done|].
    by destruct (head _). }
  rewrite Hrun. unfold mbind, M_bind. rewrite clear_run.
  run_unfold. subst ack.
  destruct (transport _) eqn:E; eexists _, _; (split; [reflexivity|]); cbn;
    unfold record_at, operator_told; cbn; rewrite lookup_insert_eq; cbn;
    split_and!; try done.
  - intros (text & kb & H). rewrite drop_all in H. by apply elem_of_nil in H.
  - intros (text & kb & H). rewrite drop_app_length in H.
    apply list_elem_of_singleton in H. discriminate.
Qed.

(** Operator 7 confirms with a channel but no draft. *)
Lemma confirm_missing_prerequisite_witness :
  ∃ r w',
    cb_confirm_yes deliver_all (press data_confirm_yes) (7, 7)
      (composing (Some PostForm.button) []) = (r, w')
    ∧ r = Return tt
    ∧ outbox w' = [answer_callback_query (py "1")]
    ∧ dialogue_state (rec_state (record_at (7, 7) w')) = Idle.
Proof.
  pose proof (confirm_missing_prerequisite deliver_all
                (press data_confirm_yes) (7, 7)
                (composing (Some PostForm.button) []) (or_introl eq_refl)) as H.
  cbn in H. destruct H as (r & w' & Hrun & _ & _ & _ & Hd & _ & Hr & Ho).
  exists r, w'. split_and!; [exact Hrun|exact Hr|exact Ho|exact Hd].
Defined.

(** C10, as stated, fails: the operator's chat refuses messages (the
    operator has blocked the bot).  Cancelling raises before
    [state.clear()] and the dialogue stays at the button step; confirming
    publishes the post to the channel and then raises from the [except]
    branch, the dialogue staying at the button step as well. *)
Lemma press_refused_not_cleared :
  let w := composing (Some PostForm.button) [hello_draft] in
  let transport := replies_refused (py "bot was blocked by the user") in
  let '(r1, w1) := feed_callback_query transport (press data_confirm_no) w in
  let '(r2, w2) := feed_callback_query transport (press data_confirm_yes) w in
  r1 = Raise (TelegramError (py "bot was blocked by the user"))
  ∧ w1 = w
  ∧ dialogue_state (rec_state (record_at (7, 7) w1)) = AwaitingButton
  ∧ r2 = Raise (TelegramError (py "bot was blocked by the user"))
  ∧ outbox w2
    = [ send_message (chat_str (py "@mychannel")) (Some (py "Hello"))
          (Some [[url_button (py "Buy") (py "https://example.com")]]) ]
  ∧ storage w2 = storage w
  ∧ dialogue_state (rec_state (record_at (7, 7) w2)) = AwaitingButton.
Proof. vm_compute. split_and!; done. Qed.

(** C10, amended.  A callback query whose data is [confirm_yes] or
    [confirm_no] gets the same treatment whatever the dialogue storage
    holds: on two worlds with the same tables, the outcome and the requests
    delivered are the same, given below from the tables and from what the
    Bot API does with each request, and the tables are unchanged.
    Confirming, when the operator has a draft and a non-empty channel,
    sends the post to the channel first, then the notice to the operator,
    or the failure message if one of the two is refused; without draft or
    channel it sends neither.  Cancelling sends the cancellation notice.
    The dialogue is blanked (Idle), and the callback acknowledged after
    that, unless the last message to the operator is refused: then the
    handler raises with the cause and the dialogue storage is left as it
    was. *)
Theorem confirm_cancel_any_state transport callback w1 w2 :
  cq_data callback = Some data_confirm_yes
  ∨ cq_data callback = Some data_confirm_no →
  users w1 = users w2 → posts w1 = posts w2 →
  let user := cq_from_user callback in
  let state : FSMContext := (cq_chat callback, user) in
  let reply (text : pystr) :=
    send_message (chat_id (cq_chat callback)) (Some text) (Some main_menu) in
  let ack := answer_callback_query (cq_id callback) in
  (* the failure message: delivered, or refused with a cause *)
  let report (c : pystr) : list Action * option pystr :=
    match transport (reply (txt_publish_error c)) with
    | None => ([reply (txt_publish_error c)], None)
    | Some refusal => ([], Some refusal)
    end in
  (* the requests delivered before [state.clear()], and the cause that ends
     the handler before it, if any *)
  let before : list Action * option pystr :=
    if decide (cq_data callback = Some data_confirm_yes) then
      match fetchone_posts user (posts w1), fetchone_users user (users w1) with
      | Some draft, Some link =>
          if decide (u_channel_id link = []) then ([], None)
          else
            let publish :=
              publish_request (u_channel_id link) (p_text draft)
                (p_media draft) (p_button_text draft) (p_button_url draft) in
            match transport publish with
            | None =>
                match transport (reply txt_published) with
                | None => ([publish; reply txt_published], None)
                | Some c => (publish :: (report c).1, (report c).2)
                end
            | Some c => report c
            end
      | _, _ => ([], None)
      end
    else
      match transport (reply txt_cancelled) with
      | None => ([reply txt_cancelled], None)
      | Some refusal => ([], Some refusal)
      end in
  let effect (r : outcome unit) (w w' : World) : Prop :=
    users w' = users w ∧ posts w' = posts w
    ∧ match before.2 with
      | Some refusal =>
          r = Raise (TelegramError refusal)
          ∧ outbox w' = outbox w ++ before.1
          ∧ storage w' = storage w
      | None =>
          storage w' = <[state := blank]> (storage w)
          ∧ dialogue_state (rec_state (record_at state w')) = Idle
          ∧ match transport ack with
            | None => r = Return tt ∧ outbox w' = outbox w ++ before.1 ++ [ack]
            | Some c =>
                r = Raise (TelegramError c) ∧ outbox w' = outbox w ++ before.1
            end
      end in
  ∃ r w1' w2',
    feed_callback_query transport callback w1 = (r, w1')
    ∧ feed_callback_query transport callback w2 = (r, w2')
    ∧ effect r w1 w1' ∧ effect r w2 w2'.
Proof.
  intros Hdata Hu Hp user state reply ack report before effect.
  set (r := match before.2 with
            | Some refusal => Raise (TelegramError refusal)
            | None => match transport ack with
                      | None => Return tt
                      | Some c => Raise (TelegramError c)
                      end
            end).
  assert (Hone : ∀ w, users w = users w1 → posts w = posts w1 →
            ∃ w', feed_callback_query transport callback w = (r, w')
                  ∧ effect r w w').
  { intros w Hwu Hwp. subst r effect. cbv beta.
    assert (Hidle : ∀ us ps ob s,
              dialogue_state (rec_state (record_at state
                {| users := us; posts := ps;
                   storage := <[state := blank]> s; outbox := ob |})) = Idle).
    { intros. by rewrite record_at_insert. }
    destruct Hdata as [Hd|Hd].
    - rewrite (dispatch_confirm_yes transport callback w Hd). fold user state.
      subst before. rewrite decide_True by done.
      destruct (fetchone_posts user (posts w1)) as [draft|] eqn:Epost.
      2: { rewrite cb_confirm_yes_skips by (left; by rewrite Hwp).
           subst ack. cbn.
           destruct (transport (answer_callback_query _));
             eexists; (split; [reflexivity|]); cbn;
             rewrite ?app_nil_r; split_and!; done. }
      destruct (fetchone_users user (users w1)) as [link|] eqn:Elink.
      2: { rewrite cb_confirm_yes_skips by (right; left; by rewrite Hwu).
           subst ack. cbn.
           destruct (transport (answer_callback_query _));
             eexists; (split; [reflexivity|]); cbn;
             rewrite ?app_nil_r; split_and!; done. }
      destruct (decide (u_channel_id link = [])) as [Hnil|Hne].
      { rewrite cb_confirm_yes_skips
          by (right; right; exists link; by rewrite Hwu).
        subst ack. cbn.
        destruct (transport (answer_callback_query _));
          eexists; (split; [reflexivity|]); cbn;
          rewrite ?app_nil_r; split_and!; done. }
      rewrite <- Hwp in Epost. rewrite <- Hwu in Elink.
      rewrite (cb_confirm_yes_run transport callback state w draft link
                 Epost Elink Hne).
      cbv zeta. subst report reply ack.
      repeat (case_match; simplify_eq; cbn [fst snd] in *);
        eexists; (split; [reflexivity|]); cbn;
        rewrite ?app_nil_r; split_and!; done.
    - rewrite (dispatch_confirm_no transport callback w Hd). fold user state.
      subst before. rewrite decide_False by (rewrite Hd; done).
      rewrite cb_confirm_no_exact. subst reply ack.
      destruct w as [us ps s ob].
      repeat (case_match; simplify_eq; cbn [fst snd] in *);
        eexists; (split; [reflexivity|]); cbn;
        rewrite ?app_nil_r; split_and!; done. }
  destruct (Hone w1 eq_refl eq_refl) as (w1' & H1 & E1).
  destruct (Hone w2 (eq_sym Hu) (eq_sym Hp)) as (w2' & H2 & E2).
  exists r, w1', w2'. split_and!; done.
Qed.

(** Confirming a draft with a photo from Idle and from the text step
    publishes alike. *)
Lemma confirm_cancel_any_state_witness :
  ∃ r w1' w2',
    feed_callback_query deliver_all (press data_confirm_yes)
      (composing None [photo_draft]) = (r, w1')
    ∧ feed_callback_query deliver_all (press data_confirm_yes)
        (composing (Some PostForm.text) [photo_draft]) = (r, w2')
    ∧ r = Return tt
    ∧ outbox w1'
      = [send_photo (chat_str (py "@mychannel")) (py "photo-file-id")
           (Some (py "Hello")) None;
         send_message (chat_id 7) (Some txt_published) (Some main_menu);
         answer_callback_query (py "1")]
    ∧ outbox w2' = outbox w1'
    ∧ dialogue_state (rec_state (record_at (7, 7) w1')) = Idle
    ∧ dialogue_state (rec_state (record_at (7, 7) w2')) = Idle.
Proof.
  destruct (confirm_cancel_any_state deliver_all (press data_confirm_yes)
              (composing None [photo_draft])
              (composing (Some PostForm.text) [photo_draft]))
    as (r & w1' & w2' & H1 & H2 & E1 & E2).
  - left. reflexivity.
  - reflexivity.
  - reflexivity.
  - destruct E1 as (_ & _ & _ & Hi1 & Hr & Ho1).
    destruct E2 as (_ & _ & _ & Hi2 & _ & Ho2).
    exists r, w1', w2'.
    split_and!; [exact H1|exact H2|exact Hr|exact Ho1| |exact Hi1|exact Hi2].
    rewrite Ho1. exact Ho2.
Defined.

(** ** The two stores *)

(** C5.  For every operator and world, after [save_post] is called twice for
    the operator, [get_post] returns the content of the second call and the
    operator has that one row; no operator has more rows than before, or than
    one. *)
Theorem save_post_overwrites w user_id t1 m1 b1 l1 t2 m2 b2 l2 :
  let second := {| p_user_id := user_id; p_text := t2; p_media := m2;
                   p_button_text := b2; p_button_url := l2 |} in
  ∃ w',
    (save_post user_id t1 m1 b1 l1 ;; save_post user_id t2 m2 b2 l2) w
    = (Return tt, w')
    ∧ get_post user_id w' = (Return (Some (t2, m2, b2, l2)), w')
    ∧ drafts_of user_id w' = [second]
    ∧ ∀ u, (length (drafts_of u w') ≤ max 1 (length (drafts_of u w)))%nat.
Proof.
  intros second.
  set (first := {| p_user_id := user_id; p_text := t1; p_media := m1;
                   p_button_text := b1; p_button_url := l1 |}).
  exists (with_posts
            (insert_into_posts second (delete_from_posts user_id
               (insert_into_posts first (delete_from_posts user_id (posts w)))))
            w).
  split; [reflexivity|].
  assert (Hrows : filter (λ r, p_user_id r = user_id)
            (insert_into_posts second (delete_from_posts user_id
               (insert_into_posts first (delete_from_posts user_id (posts w)))))
          = [second]) by apply (rows_replace_posts second).
  unfold get_post, gets, drafts_of, fetchone_posts, with_posts. cbn [posts].
  rewrite Hrows. split_and!; [done|done|].
  intros u. destruct (decide (u = user_id)) as [->|Hne].
  - rewrite Hrows. cbn. lia.
  - rewrite (rows_replace_posts_ne u second), (rows_replace_posts_ne u first)
      by done.
    lia.
Qed.

(** C8.  In every world the bot can reach from a new database, each operator
    has at most one row in [users]; and there, after [set_channel] is called
    twice for an operator, [get_channel] returns the channel of the second
    call, the operator has that one row, and every operator still has at
    most one. *)
Theorem set_channel_upsert lower command_start w user_id (c1 c2 : pystr) :
  reachable lower command_start w →
  (∀ u, (length (links_of u w) ≤ 1)%nat)
  ∧ ∃ w',
      (set_channel user_id c1 ;; set_channel user_id c2) w = (Return tt, w')
      ∧ get_channel user_id w' = (Return (Some c2), w')
      ∧ links_of user_id w'
        = [{| u_user_id := user_id; u_channel_id := c2 |}]
      ∧ ∀ u, (length (links_of u w') ≤ 1)%nat.
Proof.
  intros Hreach. apply reachable_table_inv in Hreach as [Hnd _].
  split; [intros u; by apply NoDup_keys_one_row|].
  exists (with_users
            (insert_or_replace_users user_id c2
               (insert_or_replace_users user_id c1 (users w))) w).
  split; [reflexivity|].
  unfold get_channel, gets, links_of, fetchone_users, with_users. cbn [users].
  rewrite rows_replace_users. split_and!; [done|done|].
  intros u. apply NoDup_keys_one_row. by do 2 apply users_keys_NoDup.
Qed.

(** After the operator has linked ["@mychannel"] through the dialogue. *)
Lemma set_channel_upsert_witness :
  let w := (feed_update lower_basic deliver_all no_command
              (message_update (text_message (py " @mychannel ")))
              (feed_update lower_basic deliver_all no_command
                 (callback_query_update (press data_set_channel)) fresh).2).2 in
  users w = [my_channel]
  ∧ ∃ w',
      (set_channel 7 (py "@first") ;; set_channel 7 (py "@second")) w
      = (Return tt, w')
      ∧ get_channel 7 w' = (Return (Some (py "@second")), w')
      ∧ (length (links_of 7 w') ≤ 1)%nat.
Proof.
  intros w. split; [reflexivity|].
  destruct (set_channel_upsert lower_basic no_command w 7
              (py "@first") (py "@second"))
    as (_ & w' & Hrun & Hget & _ & Hone).
  - eapply rtc_r; [eapply rtc_r; [apply rtc_refl|]|]; apply step_update.
  - exists w'. split_and!; [exact Hrun|exact Hget|exact (Hone 7)].
Defined.

(** ** The dialogues of the specification, run *)

(** Scenario 1: link, text, no media, button, confirm. *)
Example scenario1_publishes :
  let w := feed_all scenario1 fresh in
  users w = [my_channel]
  ∧ posts w = [hello_draft]
  ∧ record_at (7, 7) w = blank
  ∧ drop 9 (outbox w)
    = [ send_message (chat_str (py "@mychannel")) (Some (py "Hello"))
          (Some [[url_button (py "Buy") (py "https://example.com")]]);
        send_message (chat_id 7) (Some txt_published) (Some main_menu);
        answer_callback_query (py "1") ].
Proof. vm_compute. split_and!; reflexivity. Qed.

(** Scenario 2: a button text without delimiter is asked again, then
    declined; the draft has no button. *)
Example scenario2_no_button :
  let w := feed_all scenario2 fresh in
  posts w = [ {| p_user_id := 7; p_text := Some (py "Hello"); p_media := None;
                 p_button_text := None; p_button_url := None |} ]
  ∧ outbox w !! 7%nat
    = Some (send_message (chat_id 7) (Some txt_bad_format) None)
  ∧ rec_state (record_at (7, 7) w) = Some PostForm.button.
Proof. vm_compute. split_and!; reflexivity. Qed.

(** * Further properties *)

(** ** Trimming *)

Lemma lstrip_head (s : pystr) c : head (lstrip s) = Some c → isspace c = false.
Proof.
  induction s as [|a s IH]; cbn; [done|].
  destruct (isspace a) eqn:E; [done|]. cbn. by intros [= <-].
Qed.

Lemma lstrip_suffix (s : pystr) : lstrip s `suffix_of` s.
Proof.
  induction s as [|a s IH]; cbn; [done|].
  destruct (isspace a); [by apply suffix_cons_r|done].
Qed.

Lemma rstrip_prefix (s : pystr) : rstrip s `prefix_of` s.
Proof.
  unfold rstrip. destruct (lstrip_suffix (reverse s)) as [k Hk].
  exists (reverse k). apply (inj reverse). by rewrite reverse_app, !reverse_involutive.
Qed.

Lemma rstrip_last (s : pystr) c : last (rstrip s) = Some c → isspace c = false.
Proof.
  unfold rstrip. rewrite last_reverse. apply lstrip_head.
Qed.

Lemma strip_edges (s : pystr) c :
  head (strip s) = Some c ∨ last (strip s) = Some c → isspace c = false.
Proof.
  unfold strip. intros [H|H]; [|by apply rstrip_last in H].
  destruct (rstrip_prefix (lstrip s)) as [k Hk].
  apply (lstrip_head s). rewrite Hk.
  destruct (rstrip (lstrip s)); [done|]. exact H.
Qed.


(** ** Single handlers *)

(** The run of [save_channel_id]: the link is written before the reply is
    sent, the dialogue is cleared after it. *)
Lemma save_channel_id_run transport message state w (t : pystr) :
  m_text message = Some t →
  let saved := {| u_user_id := m_from_user message;
                  u_channel_id := strip t |} in
  let reply :=
    send_message (chat_id (m_chat message))
      (Some (txt_channel_saved (strip t))) (Some main_menu) in
  ∃ r w',
    save_channel_id transport message state w = (r, w')
    ∧ links_of (m_from_user message) w' = [saved]
    ∧ get_channel (m_from_user message) w' = (Return (Some (strip t)), w')
    ∧ posts w' = posts w
    ∧ match transport reply with
      | None =>
          r = Return tt ∧ outbox w' = outbox w ++ [reply]
          ∧ storage w' = <[state := blank]> (storage w)
      | Some cause =>
          r = Raise (TelegramError cause) ∧ outbox w' = outbox w
          ∧ storage w' = storage w
      end.
Proof.
  intros Ht saved reply.
  assert (Hrows : filter (λ r, u_user_id r = m_from_user message)
            (insert_or_replace_users (m_from_user message) (strip t) (users w))
          = [saved]) by apply rows_replace_users.
  unfold save_channel_id, text_for. rewrite Ht.
  unfold mbind at 1, M_bind, mret, M_ret. cbn beta iota zeta.
  unfold set_channel, modify, mbind at 1, M_bind.
  unfold answer, send, mbind, M_bind. fold reply.
  destruct (transport reply) eqn:E.
  - eexists _, _. split; [reflexivity|].
    unfold links_of, get_channel, gets, fetchone_users, with_users. cbn [users].
    rewrite Hrows. split_and!; done.
  - rewrite clear_run.
    eexists _, _. split; [reflexivity|].
    unfold links_of, get_channel, gets, fetchone_users, with_users,
      with_storage, with_outbox. cbn [users posts storage outbox].
    rewrite Hrows. split_and!; done.
Qed.

(** X1.  [save_channel_id] on a message with text [t] links the operator to
    [strip t], which has no whitespace at either end, whatever was linked
    before and before the reply is sent: the link is stored even when the
    reply is refused, and only a delivered reply is followed by clearing the
    dialogue.  The drafts are not touched.  A message without text raises
    and changes nothing. *)
Theorem save_channel_id_links transport message state w :
  match m_text message with
  | Some t =>
    let channel_id := strip t in
    let saved := {| u_user_id := m_from_user message;
                    u_channel_id := channel_id |} in
    let reply :=
      send_message (chat_id (m_chat message))
        (Some (txt_channel_saved channel_id)) (Some main_menu) in
    ∃ r w',
      save_channel_id transport message state w = (r, w')
      ∧ links_of (m_from_user message) w' = [saved]
      ∧ get_channel (m_from_user message) w' = (Return (Some channel_id), w')
      ∧ (∀ c, head channel_id = Some c ∨ last channel_id = Some c →
              isspace c = false)
      ∧ posts w' = posts w
      ∧ match transport reply with
        | None =>
            r = Return tt ∧ outbox w' = outbox w ++ [reply]
            ∧ storage w' = <[state := blank]> (storage w)
        | Some cause =>
            r = Raise (TelegramError cause) ∧ outbox w' = outbox w
            ∧ storage w' = storage w
        end
  | None =>
    save_channel_id transport message state w
    = (Raise (AttributeError "strip"), w)
  end.
Proof.
  destruct (m_text message) as [t|] eqn:Ht.
  - intros channel_id saved reply.
    destruct (save_channel_id_run transport message state w t Ht)
      as (r & w' & Hrun & Hrows & Hget & Hp & Ho).
    exists r, w'. split_and!; try done. intros c. apply strip_edges.
  - unfold save_channel_id, text_for. rewrite Ht. reflexivity.
Qed.

(** X2.  A channel reference that is empty after trimming is stored as the
    empty string, and the operator is then treated as having no channel:
    "new post" answers with the guidance and changes neither the dialogue nor
    the tables. *)
Theorem blank_channel_blocks_new_post transport message callback
    (state state' : FSMContext) w (t : pystr) :
  m_text message = Some t → strip t = [] →
  cq_from_user callback = m_from_user message →
  transport (send_message (chat_id (m_chat message))
               (Some (txt_channel_saved [])) (Some main_menu)) = None →
  let guidance :=
    send_message (chat_id (cq_chat callback)) (Some txt_link_first) None in
  ∃ w1 r w2,
    save_channel_id transport message state w = (Return tt, w1)
    ∧ get_channel (m_from_user message) w1 = (Return (Some []), w1)
    ∧ cb_new_post transport callback state' w1 = (r, w2)
    ∧ storage w2 = storage w1 ∧ users w2 = users w1 ∧ posts w2 = posts w1
    ∧ match transport guidance with
      | None => r = Return tt ∧ outbox w2 = outbox w1 ++ [guidance]
      | Some cause => r = Raise (TelegramError cause) ∧ outbox w2 = outbox w1
      end.
Proof.
  intros Ht Hblank Huser Hreply guidance.
  pose proof (save_channel_id_run transport message state w t Ht) as H.
  cbn zeta in H. rewrite Hblank in H.
  destruct H as (r1 & w1 & Hrun & Hrows & Hget & _ & Hout).
  rewrite Hreply in Hout. destruct Hout as (-> & _ & _).
  exists w1.
  unfold cb_new_post, mbind at 1, M_bind. rewrite Huser, Hget. cbn [truthy].
  unfold callback_message_answer, send. fold guidance.
  destruct (transport guidance); eexists _, _; (split; [exact Hrun|]);
    (split; [reflexivity|]); (split; [reflexivity|]); done.
Qed.

(** X3.  For an operator with a non-empty channel, "new post" asks for the
    text and, once that request is delivered, sets the state to
    [PostForm.text]; the dialogue data of an earlier composition is kept as
    it is and the tables are unchanged.  If the request is refused nothing
    changes. *)
Theorem new_post_with_channel transport callback state w (link : users_row) :
  fetchone_users (cq_from_user callback) (users w) = Some link →
  u_channel_id link ≠ [] →
  let ask :=
    send_message (chat_id (cq_chat callback)) (Some txt_ask_text) None in
  let ack := answer_callback_query (cq_id callback) in
  ∃ r w',
    cb_new_post transport callback state w = (r, w')
    ∧ users w' = users w ∧ posts w' = posts w
    ∧ rec_data (record_at state w') = rec_data (record_at state w)
    ∧ match transport ask with
      | None =>
          rec_state (record_at state w') = Some PostForm.text
          ∧ match transport ack with
            | None => r = Return tt ∧ outbox w' = outbox w ++ [ask; ack]
            | Some cause =>
                r = Raise (TelegramError cause) ∧ outbox w' = outbox w ++ [ask]
            end
      | Some cause =>
          r = Raise (TelegramError cause) ∧ outbox w' = outbox w
          ∧ storage w' = storage w
      end.
Proof.
  intros Hl Hne ask ack. unfold cb_new_post. run_unfold. rewrite Hl. cbn.
  destruct (u_channel_id link) as [|c cs]; [done|]. cbn.
  subst ask ack. destruct (transport (send_message _ _ _)) eqn:E1; cbn.
  - eexists _, _. split; [reflexivity|]. done.
  - destruct (transport (answer_callback_query _)) eqn:E2;
      eexists _, _; (split; [reflexivity|]); cbn;
      unfold record_at; cbn; rewrite lookup_insert_eq, <- ?app_assoc; done.
Qed.

(** X4.  [get_text] stores [message.html_text] under ["text"], keeping the
    other dialogue data, before it asks for the media; the state becomes
    [PostForm.media] only when that request is delivered.  The tables are
    unchanged. *)
Theorem get_text_stores transport message state w :
  let ask :=
    send_message (chat_id (m_chat message)) (Some txt_ask_media) None in
  ∃ r w',
    get_text transport message state w = (r, w')
    ∧ users w' = users w ∧ posts w' = posts w
    ∧ rec_data (record_at state w')
      = <["text"%string := Some (m_html_text message)]>
          (rec_data (record_at state w))
    ∧ match transport ask with
      | None =>
          r = Return tt ∧ outbox w' = outbox w ++ [ask]
          ∧ rec_state (record_at state w') = Some PostForm.media
      | Some cause =>
          r = Raise (TelegramError cause) ∧ outbox w' = outbox w
          ∧ rec_state (record_at state w') = rec_state (record_at state w)
      end.
Proof.
  intros ask. unfold get_text. run_unfold. subst ask.
  destruct (transport _) eqn:E; cbn; rewrite ?record_at_insert;
    eexists _, _; (split; [reflexivity|]); cbn;
    split_and!; try done; unfold record_at; cbn;
    by rewrite ?insert_insert_eq, lookup_insert_eq.
Qed.

(** X5.  At the media step a non-empty photo list wins over a video, and
    either wins over the text: the media recorded is the file id of the last
    photo size, or else of the video.  The state becomes [PostForm.button]
    when the prompt is delivered. *)
Theorem get_media_attachment lower transport message state w (file_id : pystr) :
  (∃ p ps, m_photo message = Some (p :: ps) ∧ file_id = List.last ps p)
  ∨ ((m_photo message = None ∨ m_photo message = Some [])
     ∧ m_video message = Some file_id) →
  let ask :=
    send_message (chat_id (m_chat message)) (Some txt_ask_button) None in
  ∃ r w',
    get_media lower transport message state w = (r, w')
    ∧ users w' = users w ∧ posts w' = posts w
    ∧ rec_data (record_at state w')
      = <["media"%string := Some file_id]> (rec_data (record_at state w))
    ∧ match transport ask with
      | None =>
          r = Return tt ∧ outbox w' = outbox w ++ [ask]
          ∧ rec_state (record_at state w') = Some PostForm.button
      | Some cause =>
          r = Raise (TelegramError cause) ∧ outbox w' = outbox w
          ∧ rec_state (record_at state w') = rec_state (record_at state w)
      end.
Proof.
  intros Hatt ask.
  assert (Hm : media_id_of lower message = λ w, (Return (Some file_id), w)).
  { unfold media_id_of.
    destruct Hatt as [(p & ps & -> & ->)|[[-> | ->] ->]]; reflexivity. }
  unfold get_media. rewrite Hm. run_unfold. subst ask.
  destruct (transport _) eqn:E; cbn; rewrite ?record_at_insert;
    eexists _, _; (split; [reflexivity|]); cbn;
    split_and!; try done; unfold record_at; cbn;
    by rewrite ?insert_insert_eq, lookup_insert_eq.
Qed.



(** X6.  When the text of the button step is the decline word after
    [lower], the draft is replaced by one with the dialogue's text and media
    and no button fields, and the preview carries no keyboard. *)
Theorem get_button_decline lower transport message state w
    (t : pystr) (text media : value) :
  m_text message = Some t → lower t = NET →
  rec_data (record_at state w) !! "text"%string = Some text →
  rec_data (record_at state w) !! "media"%string = Some media →
  let draft :=
    {| p_user_id := m_from_user message; p_text := text; p_media := media;
       p_button_text := None; p_button_url := None |} in
  let preview :=
    match media with
    | Some (c :: r) => send_photo (chat_id (m_chat message)) (c :: r) text None
    | _ => send_message (chat_id (m_chat message)) text None
    end in
  let ask :=
    send_message (chat_id (m_chat message)) (Some txt_ask_confirm)
      (Some confirm_menu) in
  ∃ r w',
    get_button lower transport message state w = (r, w')
    ∧ drafts_of (m_from_user message) w' = [draft]
    ∧ users w' = users w
    ∧ rec_state (record_at state w') = rec_state (record_at state w)
    ∧ (transport preview = None → transport ask = None →
       r = Return tt ∧ outbox w' = outbox w ++ [preview; ask]).
Proof.
  intros Ht Hnet Htext Hmedia draft preview ask.
  unfold get_button, text_for, mbind at 1, M_bind. rewrite Ht.
  cbn beta iota. unfold mret, M_ret. cbn beta iota.
  rewrite bool_decide_eq_false_2 by (by intros ?).
  destruct (get_button_save_run transport message state None None w
              text media Htext Hmedia)
    as (r & w' & Hrun & Hu & Hp & Hs & Ho).
  exists r, w'. split; [done|].
  unfold drafts_of. rewrite Hp, (rows_replace_posts draft).
  unfold record_at at 1. rewrite Hs, lookup_insert_eq. cbn.
  split_and!; done.
Qed.


(** X8.  The button text is split at its first ["|"]: what follows, further
    delimiters included, is the url.  A label or url that is empty after
    trimming is not refused: the draft is stored with it and the preview then
    carries no keyboard. *)
Theorem get_button_first_delimiter lower transport message state w
    (label rest : pystr) (text media : value) :
  (∀ s : pystr, BAR ∈ s → BAR ∈ lower s) →
  m_text message = Some (label ++ BAR :: rest) → BAR ∉ label →
  rec_data (record_at state w) !! "text"%string = Some text →
  rec_data (record_at state w) !! "media"%string = Some media →
  let draft :=
    {| p_user_id := m_from_user message; p_text := text; p_media := media;
       p_button_text := Some (strip label);
       p_button_url := Some (strip rest) |} in
  let kb :=
    if decide (strip label = [] ∨ strip rest = []) then None
    else Some [[url_button (strip label) (strip rest)]] in
  let preview :=
    match media with
    | Some (c :: r) => send_photo (chat_id (m_chat message)) (c :: r) text kb
    | _ => send_message (chat_id (m_chat message)) text kb
    end in
  let ask :=
    send_message (chat_id (m_chat message)) (Some txt_ask_confirm)
      (Some confirm_menu) in
  ∃ r w',
    get_button lower transport message state w = (r, w')
    ∧ drafts_of (m_from_user message) w' = [draft]
    ∧ (transport preview = None → transport ask = None →
       r = Return tt ∧ outbox w' = outbox w ++ [preview; ask]).
Proof.
  intros Hlow Ht Hl Htext Hmedia draft kb preview ask.
  assert (Hnet : lower (label ++ BAR :: rest) ≠ NET).
  { intros E. apply NET_no_BAR. rewrite <- E. apply Hlow.
    apply elem_of_app. right. apply elem_of_cons. by left. }
  unfold get_button, text_for, mbind, M_bind. rewrite Ht. cbn.
  rewrite bool_decide_eq_true_2 by done.
  rewrite unpack2_split1_app by done.
  destruct (get_button_save_run transport message state
              (Some (strip label)) (Some (strip rest)) w text media Htext Hmedia)
    as (r & w' & Hrun & Hu & Hp & Hs & Ho).
  exists r, w'. split; [done|].
  unfold drafts_of. rewrite Hp, (rows_replace_posts draft). split; [done|].
  assert (Hkb : url_keyboard (Some (strip label)) (Some (strip rest)) = kb).
  { subst kb. unfold url_keyboard.
    destruct (strip label) as [|c1 r1], (strip rest) as [|c2 r2];
      first [ rewrite decide_True by (by (left + right))
            | rewrite decide_False by (by intros [?|?]) ]; done. }
  unfold preview_request in Ho. rewrite Hkb in Ho. exact Ho.
Qed.



(** The run of [cb_confirm_yes] when the channel takes the post and the
    operator gets the notice. *)
Lemma cb_confirm_yes_delivers transport callback state w
    (draft : posts_row) (link : users_row) :
  fetchone_posts (cq_from_user callback) (posts w) = Some draft →
  fetchone_users (cq_from_user callback) (users w) = Some link →
  u_channel_id link ≠ [] →
  let publish :=
    publish_request (u_channel_id link) (p_text draft) (p_media draft)
      (p_button_text draft) (p_button_url draft) in
  let notice :=
    send_message (chat_id (cq_chat callback)) (Some txt_published)
      (Some main_menu) in
  let ack := answer_callback_query (cq_id callback) in
  transport publish = None → transport notice = None →
  ∃ r w',
    cb_confirm_yes transport callback state w = (r, w')
    ∧ users w' = users w ∧ posts w' = posts w
    ∧ storage w' = <[state := blank]> (storage w)
    ∧ match transport ack with
      | None => r = Return tt ∧ outbox w' = outbox w ++ [publish; notice; ack]
      | Some cause =>
          r = Raise (TelegramError cause)
          ∧ outbox w' = outbox w ++ [publish; notice]
      end.
Proof.
  intros Hd Hl Hne publish notice ack Hpub Hnot.
  unfold cb_confirm_yes. run_unfold. rewrite Hd, Hl. cbn.
  destruct (u_channel_id link) as [|c cs] eqn:Ec; [done|].
  subst publish notice ack. unfold publish_request in Hpub.
  destruct (p_media draft) as [[|m ms]|]; rewrite Hpub; cbn; rewrite Hnot; cbn;
    rewrite record_at_insert; cbn; rewrite insert_insert_eq;
    destruct (transport (answer_callback_query _));
    eexists _, _; (split; [reflexivity|]); cbn;
    rewrite <- ?app_assoc; done.
Qed.

(** X10.  When the channel takes the post and the notice reaches the
    operator, [cb_confirm_yes] sends exactly the publish request, the notice
    and the acknowledgement, blanks the dialogue and leaves both tables as
    they are: the published draft stays in [posts]. *)
Theorem confirm_publish_success transport callback state w
    (draft : posts_row) (link : users_row) :
  fetchone_posts (cq_from_user callback) (posts w) = Some draft →
  fetchone_users (cq_from_user callback) (users w) = Some link →
  u_channel_id link ≠ [] →
  let publish :=
    publish_request (u_channel_id link) (p_text draft) (p_media draft)
      (p_button_text draft) (p_button_url draft) in
  let notice :=
    send_message (chat_id (cq_chat callback)) (Some txt_published)
      (Some main_menu) in
  let ack := answer_callback_query (cq_id callback) in
  transport publish = None → transport notice = None →
  ∃ r w',
    cb_confirm_yes transport callback state w = (r, w')
    ∧ fetchone_posts (cq_from_user callback) (posts w') = Some draft
    ∧ users w' = users w ∧ posts w' = posts w
    ∧ record_at state w' = blank
    ∧ match transport ack with
      | None => r = Return tt ∧ outbox w' = outbox w ++ [publish; notice; ack]
      | Some cause =>
          r = Raise (TelegramError cause)
          ∧ outbox w' = outbox w ++ [publish; notice]
      end.
Proof.
  intros Hd Hl Hne publish notice ack Hpub Hnot.
  destruct (cb_confirm_yes_delivers transport callback state w draft link
              Hd Hl Hne Hpub Hnot) as (r & w' & Hrun & Hu & Hp & Hs & Ho).
  exists r, w'. fold publish notice ack in Ho.
  unfold record_at. rewrite Hs, lookup_insert_eq, Hp. cbn.
  split_and!; done.
Qed.

(** X11.  The notice of success is sent inside the same [try] as the
    post: when the channel has taken the post and the notice is refused, the
    handler sends the operator a publication error with the cause of the
    notice.  When that message is delivered the dialogue is cleared; when it
    is refused too, the handler raises with the cause of that refusal and
    the dialogue storage is left as it was, although the post is in the
    channel.  The tables are unchanged in both cases. *)
Theorem confirm_notice_failure transport callback state w
    (draft : posts_row) (link : users_row) (cause : pystr) :
  fetchone_posts (cq_from_user callback) (posts w) = Some draft →
  fetchone_users (cq_from_user callback) (users w) = Some link →
  u_channel_id link ≠ [] →
  let publish :=
    publish_request (u_channel_id link) (p_text draft) (p_media draft)
      (p_button_text draft) (p_button_url draft) in
  let notice :=
    send_message (chat_id (cq_chat callback)) (Some txt_published)
      (Some main_menu) in
  let report :=
    send_message (chat_id (cq_chat callback))
      (Some (txt_publish_error cause)) (Some main_menu) in
  let ack := answer_callback_query (cq_id callback) in
  transport publish = None → transport notice = Some cause →
  ∃ r w',
    cb_confirm_yes transport callback state w = (r, w')
    ∧ users w' = users w ∧ posts w' = posts w
    ∧ match transport report with
      | None =>
          record_at state w' = blank
          ∧ storage w' = <[state := blank]> (storage w)
          ∧ match transport ack with
            | None =>
                r = Return tt ∧ outbox w' = outbox w ++ [publish; report; ack]
            | Some c =>
                r = Raise (TelegramError c)
                ∧ outbox w' = outbox w ++ [publish; report]
            end
      | Some refusal =>
          r = Raise (TelegramError refusal)
          ∧ outbox w' = outbox w ++ [publish]
          ∧ storage w' = storage w
      end.
Proof.
  intros Hd Hl Hne publish notice report ack Hpub Hnot.
  rewrite (cb_confirm_yes_run transport callback state w draft link Hd Hl Hne).
  cbv zeta. subst publish notice report ack. rewrite Hpub, Hnot.
  destruct (transport (send_message _ (Some (txt_publish_error cause)) _))
    as [refusal|].
  - eexists _, _. split; [reflexivity|]. cbn. split_and!; done.
  - destruct (transport (answer_callback_query _));
      eexists _, _; (split; [reflexivity|]); cbn;
      unfold record_at; cbn; rewrite lookup_insert_eq; split_and!; done.
Qed.


(** ** What the handlers leave alone *)

Lemma preserves_ret {X A} (f : World → X) (a : A) : preserves f (mret a).
Proof. by intros w. Qed.

Lemma preserves_raise {X A} (f : World → X) (e : exn) : preserves f (@raise A e).
Proof. by intros w. Qed.

Lemma preserves_gets {X A} (f : World → X) (g : World → A) : preserves f (gets g).
Proof. by intros w. Qed.

Lemma preserves_bind {X A B} (f : World → X) (m : M A) (k : A → M B) :
  preserves f m → (∀ a, preserves f (k a)) → preserves f (m ≫= k).
Proof.
  intros Hm Hk w. unfold mbind, M_bind. specialize (Hm w).
  destruct (m w) as [[a|e] w1]; [|done]. cbn in Hm. by rewrite Hk.
Qed.

Lemma preserves_try_except {X A} (f : World → X) (body : M A)
    (handler : exn → M A) :
  preserves f body → (∀ e, preserves f (handler e)) →
  preserves f (try_except body handler).
Proof.
  intros Hm Hh w. unfold try_except. specialize (Hm w).
  destruct (body w) as [[a|e] w1]; [done|]. cbn in Hm. by rewrite Hh.
Qed.

Ltac preserves_prim :=
  let w := fresh "w" in
  intros w;
  unfold send, set_state, set_data, set_channel, save_post, modify,
    links_of, drafts_of;
  repeat case_match; cbn;
  first [ reflexivity
        | by rewrite lookup_insert_ne
        | by apply rows_replace_users_ne
        | by apply (rows_replace_posts_ne _
                      {| p_user_id := _; p_text := _; p_media := _;
                         p_button_text := _; p_button_url := _ |}) ].

Ltac preserves_step :=
  match goal with
  | |- preserves _ (_ ≫= _) => apply preserves_bind; [|intros ?]
  | |- preserves _ (try_except _ _) => apply preserves_try_except; [|intros ?]
  | |- preserves _ (mret _) => apply preserves_ret
  | |- preserves _ (raise _) => apply preserves_raise
  | |- preserves _ (gets _) => apply preserves_gets
  | |- preserves _ (match ?x with _ => _ end) => destruct x
  | |- preserves _ (if ?x then _ else _) => destruct x
  | |- preserves _ (send _ _) => preserves_prim
  | |- preserves _ (set_state _ _) => preserves_prim
  | |- preserves _ (set_data _ _) => preserves_prim
  | |- preserves _ (set_channel _ _) => preserves_prim
  | |- preserves _ (save_post _ _ _ _ _) => preserves_prim
  end.

Ltac preserves_auto :=
  unfold start, cb_set_channel, save_channel_id, cb_new_post, get_text,
    get_media, media_id_of, get_button, get_button_save, cb_confirm_yes,
    cb_confirm_no;
  unfold answer, callback_message_answer, callback_answer, text_for, getitem,
    update_data, clear, get_data, get_post, get_channel;
  repeat preserves_step.

Section Confined.
Variable lower : pystr → pystr.
Variable transport : Action → option pystr.

(** Every message handler is confined to the dialogue it is given and to the
    rows of the sender. *)
Lemma message_handlers_confined message state h :
  In h (message_handlers lower transport) →
  (∀ k, k ≠ state → preserves (λ w, storage w !! k) (h.2 message state))
  ∧ (∀ u, u ≠ m_from_user message →
       preserves (links_of u) (h.2 message state)
       ∧ preserves (drafts_of u) (h.2 message state)).
Proof.
  unfold message_handlers. intros Hin. cbn in Hin.
  repeat (destruct Hin as [<-|Hin]; [cbn [snd]|]); [..|done];
    (split; [intros k Hk|intros u Hu; split]); preserves_auto.
Qed.

Lemma callback_query_handlers_confined callback state h :
  In h (callback_query_handlers transport) →
  (∀ k, k ≠ state → preserves (λ w, storage w !! k) (h.2 callback state))
  ∧ (∀ u, preserves (links_of u) (h.2 callback state)
          ∧ preserves (drafts_of u) (h.2 callback state)).
Proof.
  unfold callback_query_handlers. intros Hin. cbn in Hin.
  repeat (destruct Hin as [<-|Hin]; [cbn [snd]|]); [..|done];
    (split; [intros k Hk|intros u; split]); preserves_auto.
Qed.

End Confined.

(** X13.  An update changes no dialogue but the one of its chat and user,
    and no row of another operator: their links, drafts and what
    [get_channel] and [get_post] return for them are unchanged. *)
Theorem feed_update_confined lower transport command_start u w :
  let w' := (feed_update lower transport command_start u w).2 in
  (∀ k, k ≠ key_of u → storage w' !! k = storage w !! k)
  ∧ (∀ user_id, user_id ≠ user_of u →
       links_of user_id w' = links_of user_id w
       ∧ drafts_of user_id w' = drafts_of user_id w
       ∧ (get_channel user_id w').1 = (get_channel user_id w).1
       ∧ (get_post user_id w').1 = (get_post user_id w).1).
Proof.
  assert (Hget : ∀ user_id w1 w2,
            links_of user_id w1 = links_of user_id w2 →
            drafts_of user_id w1 = drafts_of user_id w2 →
            (get_channel user_id w1).1 = (get_channel user_id w2).1
            ∧ (get_post user_id w1).1 = (get_post user_id w2).1).
  { intros user_id w1 w2 Hl Hd.
    unfold get_channel, get_post, gets, fetchone_users, fetchone_posts. cbn.
    unfold links_of in Hl. unfold drafts_of in Hd. by rewrite Hl, Hd. }
  destruct u as [message|callback]; cbn [feed_update key_of user_of].
  - unfold feed_message, gets, mbind, M_bind. cbn beta iota.
    destruct (List.find _ _) as [[f h]|] eqn:E; [|by cbn].
    apply List.find_some in E as [Hin _].
    destruct (message_handlers_confined lower transport message
                (m_chat message, m_from_user message) _ Hin) as [Hs Ht].
    cbn [snd] in Hs, Ht. split.
    + intros k Hk. exact (Hs k Hk w).
    + intros user_id Hu. destruct (Ht user_id Hu) as [Hl Hd].
      specialize (Hl w). specialize (Hd w). cbn beta in Hl, Hd.
      destruct (Hget user_id _ _ Hl Hd). done.
  - unfold feed_callback_query, gets, mbind, M_bind. cbn beta iota.
    destruct (List.find _ _) as [[f h]|] eqn:E; [|by cbn].
    apply List.find_some in E as [Hin _].
    destruct (callback_query_handlers_confined transport callback
                (cq_chat callback, cq_from_user callback) _ Hin) as [Hs Ht].
    cbn [snd] in Hs, Ht. split.
    + intros k Hk. exact (Hs k Hk w).
    + intros user_id Hu. destruct (Ht user_id) as [Hl Hd].
      specialize (Hl w). specialize (Hd w). cbn beta in Hl, Hd.
      destruct (Hget user_id _ _ Hl Hd). done.
Qed.


(** ** Dispatch of messages *)

Lemma feed_message_start lower transport command_start message w :
  command_start message = true →
  feed_message lower transport command_start message w
  = start transport message w.
Proof.
  intros H. unfold feed_message, message_handlers, gets, mbind at 1, M_bind.
  cbn [List.find check_message fst snd]. by rewrite H.
Qed.

Lemma feed_message_state lower transport command_start message w :
  command_start message = false →
  feed_message lower transport command_start message w
  = match rec_state (record_at (m_chat message, m_from_user message) w) with
    | Some s =>
        state_handler lower transport s message
          (m_chat message, m_from_user message) w
    | None => (Return tt, w)
    end.
Proof.
  intros H. unfold feed_message, message_handlers, gets, mbind at 1, M_bind.
  cbn [List.find check_message fst snd]. rewrite H.
  by destruct (rec_state _) as [[]|].
Qed.

(** X14.  A message that is not the start command in a dialogue without
    state, and a callback query whose data is none of the four registered,
    match no handler: the world is unchanged. *)
Theorem feed_update_unhandled lower transport command_start u w :
  match u with
  | message_update message =>
      command_start message = false
      ∧ rec_state (record_at (key_of u) w) = None
  | callback_query_update callback =>
      cq_data callback ≠ Some data_set_channel
      ∧ cq_data callback ≠ Some data_new_post
      ∧ cq_data callback ≠ Some data_confirm_yes
      ∧ cq_data callback ≠ Some data_confirm_no
  end →
  feed_update lower transport command_start u w = (Return tt, w).
Proof.
  destruct u as [message|callback]; cbn [feed_update key_of].
  - intros [Hc Hs]. rewrite feed_message_state by done. by rewrite Hs.
  - intros (H1 & H2 & H3 & H4).
    unfold feed_callback_query, callback_query_handlers, gets, mbind at 1, M_bind.
    cbn [List.find check_callback fst snd].
    by rewrite !bool_decide_eq_false_2.
Qed.

(** X15.  The start command is answered with the main menu in every
    dialogue state, before any state handler: the input is not taken as
    channel, text, media or button, and the dialogue and the tables are
    unchanged. *)
Theorem start_in_any_state lower transport command_start message w :
  command_start message = true →
  let menu :=
    send_message (chat_id (m_chat message)) (Some txt_start) (Some main_menu) in
  ∃ r w',
    feed_update lower transport command_start (message_update message) w
    = (r, w')
    ∧ users w' = users w ∧ posts w' = posts w ∧ storage w' = storage w
    ∧ match transport menu with
      | None => r = Return tt ∧ outbox w' = outbox w ++ [menu]
      | Some cause => r = Raise (TelegramError cause) ∧ outbox w' = outbox w
      end.
Proof.
  intros Hc menu. cbn [feed_update]. rewrite feed_message_start by done.
  unfold start, answer, send. fold menu.
  destruct (transport menu); eexists _, _; (split; [reflexivity|]); done.
Qed.

(** The only handler that writes [users] is [save_channel_id], the only one
    that writes [posts] is [get_button]. *)
Lemma message_handlers_tables lower transport message state s :
  (s ≠ PostForm.set_channel →
   preserves users (state_handler lower transport s message state))
  ∧ (s ≠ PostForm.button →
     preserves posts (state_handler lower transport s message state)).
Proof.
  split; intros Hs; destruct s; try done; cbn [state_handler]; preserves_auto.
Qed.

Lemma callback_query_handlers_tables transport callback state h :
  In h (callback_query_handlers transport) →
  preserves users (h.2 callback state) ∧ preserves posts (h.2 callback state).
Proof.
  unfold callback_query_handlers. intros Hin. cbn in Hin.
  repeat (destruct Hin as [<-|Hin]; [cbn [snd]|]); [..|done];
    split; preserves_auto.
Qed.

(** X16.  Handling an update changes [users] only for a message at the
    channel step and [posts] only for a message at the button step; button
    presses and the start command never write a table. *)
Theorem table_writers lower transport command_start u w :
  let w' := (feed_update lower transport command_start u w).2 in
  (users w' = users w
   ∨ ∃ message, u = message_update message
       ∧ command_start message = false
       ∧ rec_state (record_at (key_of u) w) = Some PostForm.set_channel)
  ∧ (posts w' = posts w
     ∨ ∃ message, u = message_update message
         ∧ command_start message = false
         ∧ rec_state (record_at (key_of u) w) = Some PostForm.button).
Proof.
  destruct u as [message|callback]; cbn [feed_update key_of].
  - destruct (command_start message) eqn:Hc.
    + rewrite feed_message_start by done.
      split; left; unfold start, answer, send; by destruct (transport _).
    + rewrite feed_message_state by done.
      destruct (rec_state _) as [s|] eqn:Hs; [|by split; left].
      destruct (message_handlers_tables lower transport message
                  (m_chat message, m_from_user message) s) as [Hu Hp].
      split.
      * destruct (decide (s = PostForm.set_channel)) as [->|Hne];
          [right; eauto|left; exact (Hu Hne w)].
      * destruct (decide (s = PostForm.button)) as [->|Hne];
          [right; eauto|left; exact (Hp Hne w)].
  - unfold feed_callback_query, gets, mbind, M_bind. cbn beta iota.
    destruct (List.find _ _) as [[f h]|] eqn:E; [|by split; left].
    apply List.find_some in E as [Hin _].
    destruct (callback_query_handlers_tables transport callback
                (cq_chat callback, cq_from_user callback) _ Hin) as [Hu Hp].
    split; left; [exact (Hu w)|exact (Hp w)].
Qed.


(** ** The data a dialogue holds at each step *)

Ltac session_auto :=
  run_unfold; repeat case_match; simplify_eq;
  unfold session_ok, record_at in *; cbn in *;
  rewrite ?lookup_insert_eq; cbn;
  rewrite ?lookup_insert_ne by done;
  repeat match goal with
         | H : rec_state _ = _ |- _ => rewrite H in *
         end;
  rewrite ?lookup_insert_eq; rewrite ?lookup_insert_ne by done;
  try done; try (split; done).

Lemma state_handler_session lower transport s message state w :
  rec_state (record_at state w) = Some s →
  session_ok (record_at state w) →
  session_ok (record_at state (state_handler lower transport s message state w).2).
Proof.
  intros Hs Hok. unfold session_ok in Hok. rewrite Hs in Hok.
  destruct s; cbn [state_handler].
  - unfold save_channel_id. session_auto.
  - unfold get_text. session_auto.
  - unfold get_media, media_id_of. session_auto.
  - unfold get_button, get_button_save. session_auto.
Qed.

Lemma callback_query_handlers_session transport callback state h w :
  In h (callback_query_handlers transport) →
  session_ok (record_at state w) →
  session_ok (record_at state (h.2 callback state w).2).
Proof.
  unfold callback_query_handlers. intros Hin Hok. cbn in Hin.
  repeat (destruct Hin as [<-|Hin]; [cbn [snd]|]); [..|done].
  - unfold cb_set_channel. session_auto.
  - unfold cb_new_post. session_auto.
  - unfold cb_confirm_yes. session_auto.
  - unfold cb_confirm_no. session_auto.
Qed.

Lemma session_ok_ext (k : FSMContext) (w w' : World) :
  storage w' !! k = storage w !! k →
  session_ok (record_at k w) → session_ok (record_at k w').
Proof. intros H. unfold record_at. by rewrite H. Qed.

Lemma feed_update_sessions_ok lower transport command_start u w :
  sessions_ok w →
  sessions_ok (feed_update lower transport command_start u w).2.
Proof.
  intros Hok k. destruct u as [message|callback]; cbn [feed_update].
  - destruct (command_start message) eqn:Hc.
    + rewrite feed_message_start by done.
      apply (session_ok_ext k w); [|apply Hok].
      unfold start, answer, send. by destruct (transport _).
    + rewrite feed_message_state by done.
      destruct (rec_state _) as [s|] eqn:Hs; [|apply Hok].
      destruct (decide (k = (m_chat message, m_from_user message))) as [->|Hk].
      * by apply state_handler_session.
      * apply (session_ok_ext k w); [|apply Hok].
        assert (Hin : In (StateFilter s, state_handler lower transport s)
                        (message_handlers lower transport)).
        { unfold message_handlers. destruct s; cbn; tauto. }
        destruct (message_handlers_confined lower transport message
                    (m_chat message, m_from_user message) _ Hin) as [Hst _].
        exact (Hst k Hk w).
  - unfold feed_callback_query, gets, mbind, M_bind. cbn beta iota.
    destruct (List.find _ _) as [[f h]|] eqn:E; [|apply Hok].
    apply List.find_some in E as [Hin _].
    destruct (decide (k = (cq_chat callback, cq_from_user callback))) as [->|Hk].
    + exact (callback_query_handlers_session transport callback _ (f, h) w
               Hin (Hok _)).
    + apply (session_ok_ext k w); [|apply Hok].
      destruct (callback_query_handlers_confined transport callback
                  (cq_chat callback, cq_from_user callback) _ Hin) as [Hst _].
      exact (Hst k Hk w).
Qed.

(** ** Exceptions *)

Lemma raises_only_ret {A} P (a : A) : raises_only P (mret a).
Proof. by intros w e w'. Qed.

Lemma raises_only_raise {A} (P : exn → Prop) e : P e → raises_only P (@raise A e).
Proof. intros H w e' w' [= <- _]. done. Qed.

Lemma raises_only_gets {A} P (g : World → A) : raises_only P (gets g).
Proof. by intros w e w'. Qed.

Lemma raises_only_modify P g : raises_only P (modify g).
Proof. by intros w e w'. Qed.

Lemma raises_only_bind {A B} P (m : M A) (k : A → M B) :
  raises_only P m → (∀ a, raises_only P (k a)) → raises_only P (m ≫= k).
Proof.
  intros Hm Hk w e w'. unfold mbind, M_bind.
  destruct (m w) as [[a|e1] w1] eqn:E.
  - apply Hk.
  - intros [= <- <-]. by eapply Hm.
Qed.

Lemma raises_only_try_except {A} P (body : M A) (handler : exn → M A) :
  (∀ e, raises_only P (handler e)) → raises_only P (try_except body handler).
Proof.
  intros Hh w e w'. unfold try_except.
  destruct (body w) as [[a|e1] w1]; [done|apply Hh].
Qed.

Lemma raises_only_send transport P (a : Action) :
  (∀ cause, P (TelegramError cause)) → raises_only P (send transport a).
Proof.
  intros HP w e w'. unfold send. destruct (transport a); [|done].
  intros [= <- _]. apply HP.
Qed.

Ltac raises_step :=
  match goal with
  | |- raises_only _ (_ ≫= _) => apply raises_only_bind; [|intros ?]
  | |- raises_only _ (try_except _ _) => apply raises_only_try_except; intros ?
  | |- raises_only _ (mret _) => apply raises_only_ret
  | |- raises_only _ (raise _) => apply raises_only_raise; done
  | |- raises_only _ (gets _) => apply raises_only_gets
  | |- raises_only _ (modify _) => apply raises_only_modify
  | |- raises_only _ (send _ _) => apply raises_only_send; done
  | |- raises_only _ (match ?x with _ => _ end) => destruct x
  | |- raises_only _ (if ?x then _ else _) => destruct x
  end.

Ltac raises_auto :=
  unfold answer, callback_message_answer, callback_answer, text_for,
    update_data, clear, get_data, get_post, get_channel, set_state, set_data,
    set_channel, save_post;
  repeat raises_step.

Lemma get_button_save_raises transport message state bt bu w text media e w' :
  rec_data (record_at state w) !! "text"%string = Some text →
  rec_data (record_at state w) !! "media"%string = Some media →
  get_button_save transport message state bt bu w = (Raise e, w') →
  not_KeyError e.
Proof.
  intros Ht Hm. unfold get_button_save. run_unfold.
  rewrite record_at_insert. cbn.
  rewrite !lookup_insert_ne by done. rewrite Ht, Hm.
  destruct media as [[|c m]|]; repeat case_match; simplify_eq;
    intros [= <- _]; done.
Qed.

Lemma state_handler_raises lower transport s message state w e w' :
  rec_state (record_at state w) = Some s →
  session_ok (record_at state w) →
  state_handler lower transport s message state w = (Raise e, w') →
  not_KeyError e.
Proof.
  intros Hs Hok. unfold session_ok in Hok. rewrite Hs in Hok.
  destruct s; cbn [state_handler].
  - clear Hs Hok. revert w e w'. change (raises_only not_KeyError
      (save_channel_id transport message state)).
    unfold save_channel_id. raises_auto.
  - clear Hs Hok. revert w e w'. change (raises_only not_KeyError
      (get_text transport message state)).
    unfold get_text. raises_auto.
  - clear Hs Hok. revert w e w'. change (raises_only not_KeyError
      (get_media lower transport message state)).
    unfold get_media, media_id_of. raises_auto.
  - destruct Hok as [[text Ht] [media Hm]].
    unfold get_button, text_for, mbind at 1, M_bind.
    destruct (m_text message) as [t|]; [|by intros [= <- _]].
    cbn beta iota. unfold mret, M_ret. cbn beta iota.
    destruct (bool_decide _).
    + destruct (unpack2 _) as [[a b]|].
      * by apply get_button_save_raises with (text := text) (media := media).
      * unfold answer, send. destruct (transport _); [|done].
        by intros [= <- _].
    + by apply get_button_save_raises with (text := text) (media := media).
Qed.

Lemma callback_query_handlers_raise transport callback state h :
  In h (callback_query_handlers transport) →
  raises_only not_KeyError (h.2 callback state).
Proof.
  unfold callback_query_handlers. intros Hin. cbn in Hin.
  repeat (destruct Hin as [<-|Hin]; [cbn [snd]|]); [..|done].
  - unfold cb_set_channel. raises_auto.
  - unfold cb_new_post. raises_auto.
  - unfold cb_confirm_yes. raises_auto.
  - unfold cb_confirm_no. raises_auto.
Qed.

(** X17.  In every world reachable from a new database, a dialogue at the
    media step holds a text and one at the button step holds text and media;
    so no update there makes a handler raise [KeyError]. *)
Theorem reachable_sessions_ok lower command_start w :
  reachable lower command_start w →
  sessions_ok w
  ∧ ∀ transport u e w',
      feed_update lower transport command_start u w = (Raise e, w') →
      not_KeyError e.
Proof.
  intros Hreach.
  assert (Hok : sessions_ok w).
  { revert w Hreach. apply (rtc_ind_r sessions_ok fresh).
    - intros k. unfold record_at. cbn. by rewrite lookup_empty.
    - intros w1 w2 _ Hstep IH. destruct Hstep as [transport u w1].
      by apply feed_update_sessions_ok. }
  split; [done|].
  intros transport u e w'. destruct u as [message|callback]; cbn [feed_update].
  - destruct (command_start message) eqn:Hc.
    + rewrite feed_message_start by done.
      unfold start, answer, send. destruct (transport _); [|done].
      by intros [= <- _].
    + rewrite feed_message_state by done.
      destruct (rec_state _) as [s|] eqn:Hs; [|done].
      by apply state_handler_raises.
  - unfold feed_callback_query, gets, mbind, M_bind. cbn beta iota.
    destruct (List.find _ _) as [[f h]|] eqn:E; [|done].
    apply List.find_some in E as [Hin _].
    exact (callback_query_handlers_raise transport callback _ (f, h) Hin w e w').
Qed.

(** X18.  In every world reachable from a new database an operator has at
    most one row in [posts], and [get_post] finds any row the operator has. *)
Theorem reachable_one_draft lower command_start w user_id :
  reachable lower command_start w →
  (length (drafts_of user_id w) ≤ 1)%nat
  ∧ (∀ r, r ∈ posts w → p_user_id r = user_id →
          fetchone_posts user_id (posts w) = Some r).
Proof.
  intros Hreach. apply reachable_table_inv in Hreach as [_ Hone].
  specialize (Hone user_id). split; [done|].
  intros r Hin Hu. unfold fetchone_posts.
  assert (Hr : r ∈ drafts_of user_id w) by (by apply list_elem_of_filter).
  unfold drafts_of in *.
  destruct (filter _ (posts w)) as [|r1 [|r2 l]]; cbn in *.
  - by apply elem_of_nil in Hr.
  - by apply list_elem_of_singleton in Hr as ->.
  - lia.
Qed.


(** ** Cancelling, menus, stores *)



(** X19.  Every button of the main menu and of the confirm menu is handled:
    a callback query carrying the button's data is dispatched to a handler
    registered for that data. *)
Theorem menu_buttons_handled transport callback (text data : pystr) w :
  (∃ row, row ∈ main_menu ++ confirm_menu ∧ callback_button text data ∈ row) →
  cq_data callback = Some data →
  ∃ handler,
    In (F_data data, handler) (callback_query_handlers transport)
    ∧ feed_callback_query transport callback w
      = handler callback (cq_chat callback, cq_from_user callback) w.
Proof.
  intros (row & Hrow & Hb) Hdata.
  assert (Hcase : data = data_set_channel ∨ data = data_new_post
                  ∨ data = data_confirm_yes ∨ data = data_confirm_no).
  { unfold main_menu, confirm_menu in Hrow. cbn in Hrow.
    repeat (apply elem_of_cons in Hrow as [-> | Hrow];
            [apply list_elem_of_singleton in Hb; simplify_eq; tauto|]).
    by apply elem_of_nil in Hrow. }
  unfold feed_callback_query, callback_query_handlers, gets, mbind at 1, M_bind.
  cbn [List.find check_callback fst snd]. rewrite Hdata.
  destruct Hcase as [-> | [-> | [-> | ->]]];
    repeat first [ rewrite bool_decide_eq_true_2 by done
                 | rewrite bool_decide_eq_false_2 by done ];
    eexists; (split; [|reflexivity]); cbn; tauto.
Qed.

(** X20.  [set_channel] and [save_post] for one operator do not change what
    [get_channel] and [get_post] return for another, and neither changes
    what the other table returns for the same operator. *)
Theorem stores_per_operator w (user_id other : Z) (channel_id : pystr)
    (text media button_text button_url : value) :
  other ≠ user_id →
  let w1 := (set_channel user_id channel_id w).2 in
  let w2 := (save_post user_id text media button_text button_url w).2 in
  (get_channel other w1).1 = (get_channel other w).1
  ∧ (get_post other w1).1 = (get_post other w).1
  ∧ (get_post other w2).1 = (get_post other w).1
  ∧ (get_channel other w2).1 = (get_channel other w).1
  ∧ (get_channel user_id w2).1 = (get_channel user_id w).1
  ∧ (get_post user_id w1).1 = (get_post user_id w).1.
Proof.
  intros Hne w1 w2.
  unfold get_channel, get_post, gets, fetchone_users, fetchone_posts. cbn.
  rewrite rows_replace_users_ne by done.
  rewrite (rows_replace_posts_ne other
    {| p_user_id := user_id; p_text := text; p_media := media;
       p_button_text := button_text; p_button_url := button_url |}) by done.
  done.
Qed.


(** ** Whole dialogues *)



Section Steps.
Variable lower : pystr → pystr.
Variable command_start : Message → bool.
Context (w : World) (user chat : Z).






End Steps.






(** ** Concrete runs of the further properties *)

Lemma save_channel_id_links_witness :
  ∃ r w',
    save_channel_id deliver_all (text_message (py " @mychannel ")) (7, 7)
      (composing (Some PostForm.set_channel) []) = (r, w')
    ∧ get_channel 7 w' = (Return (Some (py "@mychannel")), w')
    ∧ r = Return tt.
Proof.
  pose proof (save_channel_id_links deliver_all
                (text_message (py " @mychannel ")) (7, 7)
                (composing (Some PostForm.set_channel) [])) as H.
  cbn [m_text text_message] in H. cbv zeta in H.
  destruct H as (r & w' & Hrun & _ & Hget & _ & _ & Hr).
  exists r, w'. split_and!; [exact Hrun|exact Hget|exact (proj1 Hr)].
Defined.

Lemma blank_channel_blocks_new_post_witness :
  ∃ w1 r w2,
    save_channel_id deliver_all (text_message (py "   ")) (7, 7)
      (composing (Some PostForm.set_channel) []) = (Return tt, w1)
    ∧ get_channel 7 w1 = (Return (Some []), w1)
    ∧ cb_new_post deliver_all (press data_new_post) (7, 7) w1 = (r, w2)
    ∧ storage w2 = storage w1.
Proof.
  destruct (blank_channel_blocks_new_post deliver_all
              (text_message (py "   ")) (press data_new_post) (7, 7) (7, 7)
              (composing (Some PostForm.set_channel) []) (py "   "))
    as (w1 & r & w2 & H1 & H2 & H3 & H4 & _).
  - reflexivity.
  - reflexivity.
  - reflexivity.
  - reflexivity.
  - exists w1, r, w2. split_and!; [exact H1|exact H2|exact H3|exact H4].
Defined.

Lemma new_post_with_channel_witness :
  ∃ r w',
    cb_new_post deliver_all (press data_new_post) (7, 7)
      (composing (Some PostForm.button) [hello_draft]) = (r, w')
    ∧ rec_state (record_at (7, 7) w') = Some PostForm.text
    ∧ rec_data (record_at (7, 7) w') !! "text"%string = Some (Some (py "Hello"))
    ∧ posts w' = [hello_draft].
Proof.
  pose proof (new_post_with_channel deliver_all (press data_new_post) (7, 7)
                (composing (Some PostForm.button) [hello_draft]) my_channel
                eq_refl) as H.
  destruct H as (r & w' & Hrun & _ & Hp & Hd & Hs & _).
  - vm_compute. discriminate.
  - exists r, w'. split_and!; [exact Hrun|exact Hs| |exact Hp].
    rewrite Hd. reflexivity.
Defined.

Lemma get_media_attachment_witness :
  ∃ r w',
    get_media lower_basic deliver_all photo_message (7, 7)
      (composing (Some PostForm.media) []) = (r, w')
    ∧ rec_data (record_at (7, 7) w') !! "media"%string = Some (Some (py "large"))
    ∧ rec_state (record_at (7, 7) w') = Some PostForm.button.
Proof.
  pose proof (get_media_attachment lower_basic deliver_all photo_message (7, 7)
                (composing (Some PostForm.media) []) (py "large")) as H.
  destruct H as (r & w' & Hrun & _ & _ & Hd & _ & _ & Hs).
  - left. exists (py "small"), [py "large"]. split; reflexivity.
  - exists r, w'. split_and!; [exact Hrun| |exact Hs].
    rewrite Hd. reflexivity.
Defined.

Lemma get_button_decline_witness :
  ∃ r w',
    get_button lower_basic deliver_all (text_message (py "НЕТ")) (7, 7)
      (composing (Some PostForm.button) [hello_draft]) = (r, w')
    ∧ drafts_of 7 w'
      = [ {| p_user_id := 7; p_text := Some (py "Hello"); p_media := None;
             p_button_text := None; p_button_url := None |} ]
    ∧ r = Return tt.
Proof.
  destruct (get_button_decline lower_basic deliver_all
              (text_message (py "НЕТ")) (7, 7)
              (composing (Some PostForm.button) [hello_draft]) (py "НЕТ")
              (Some (py "Hello")) None)
    as (r & w' & Hrun & Hrows & _ & _ & Ho).
  - reflexivity.
  - reflexivity.
  - reflexivity.
  - reflexivity.
  - exists r, w'. destruct Ho as [-> _]; [reflexivity..|].
    split_and!; [exact Hrun|exact Hrows|reflexivity].
Defined.


Lemma get_button_first_delimiter_witness :
  ∃ r w',
    get_button lower_basic deliver_all (text_message (py " | a|b")) (7, 7)
      (composing (Some PostForm.button) []) = (r, w')
    ∧ drafts_of 7 w'
      = [ {| p_user_id := 7; p_text := Some (py "Hello"); p_media := None;
             p_button_text := Some []; p_button_url := Some (py "a|b") |} ]
    ∧ outbox w'
      = [ send_message (chat_id 7) (Some (py "Hello")) None;
          send_message (chat_id 7) (Some txt_ask_confirm) (Some confirm_menu) ].
Proof.
  destruct (get_button_first_delimiter lower_basic deliver_all
              (text_message (py " | a|b")) (7, 7)
              (composing (Some PostForm.button) [])
              (py " ") (py " a|b") (Some (py "Hello")) None)
    as (r & w' & Hrun & Hrows & Ho).
  - exact lower_basic_keeps_BAR.
  - reflexivity.
  - by_compute.
  - reflexivity.
  - reflexivity.
  - exists r, w'. destruct Ho as [_ Ho]; [reflexivity..|].
    split_and!; [exact Hrun|exact Hrows|exact Ho].
Defined.


Lemma confirm_publish_success_witness :
  ∃ r w',
    cb_confirm_yes deliver_all (press data_confirm_yes) (7, 7)
      (composing (Some PostForm.button) [hello_draft]) = (r, w')
    ∧ r = Return tt ∧ posts w' = [hello_draft]
    ∧ record_at (7, 7) w' = blank.
Proof.
  pose proof (confirm_publish_success deliver_all (press data_confirm_yes)
                (7, 7) (composing (Some PostForm.button) [hello_draft])
                hello_draft my_channel eq_refl eq_refl) as H.
  destruct H as (r & w' & Hrun & _ & _ & Hp & Hb & Hr & _);
    [vm_compute; discriminate|reflexivity|reflexivity|].
  exists r, w'. split_and!; [exact Hrun|exact Hr|exact Hp|exact Hb].
Defined.

Lemma confirm_notice_failure_witness :
  ∃ r w',
    cb_confirm_yes (notice_lost (py "timeout")) (press data_confirm_yes) (7, 7)
      (composing (Some PostForm.button) [hello_draft]) = (r, w')
    ∧ r = Return tt
    ∧ outbox w' !! 1%nat
      = Some (send_message (chat_id 7)
                (Some (txt_publish_error (py "timeout"))) (Some main_menu))
    ∧ record_at (7, 7) w' = blank.
Proof.
  pose proof (confirm_notice_failure (notice_lost (py "timeout"))
                (press data_confirm_yes) (7, 7)
                (composing (Some PostForm.button) [hello_draft])
                hello_draft my_channel (py "timeout") eq_refl eq_refl) as H.
  destruct H as (r & w' & Hrun & _ & _ & Hrest);
    [vm_compute; discriminate|reflexivity|reflexivity|].
  assert (E : notice_lost (py "timeout")
                (send_message (chat_id (cq_chat (press data_confirm_yes)))
                   (Some (txt_publish_error (py "timeout"))) (Some main_menu))
              = None) by reflexivity.
  rewrite E in Hrest. destruct Hrest as (Hb & _ & Hr & Ho).
  exists r, w'. split_and!; [exact Hrun|exact Hr| |exact Hb].
  rewrite Ho. reflexivity.
Defined.


Lemma feed_update_confined_witness :
  let w := composing (Some PostForm.button) [hello_draft] in
  let w' := (feed_update lower_basic deliver_all no_command
               (message_update
                  (plain_message 8 8 (py "Sale | https://example.org"))) w).2 in
  storage w' !! (7, 7) = storage w !! (7, 7)
  ∧ drafts_of 7 w' = [hello_draft].
Proof.
  intros w w'.
  destruct (feed_update_confined lower_basic deliver_all no_command
              (message_update
                 (plain_message 8 8 (py "Sale | https://example.org"))) w)
    as [Hs Ht].
  split.
  - apply Hs. cbn. intros [= ?].
  - destruct (Ht 7) as (_ & Hd & _); [cbn; lia|]. exact Hd.
Defined.

Lemma feed_update_unhandled_witness :
  feed_update lower_basic deliver_all no_command
    (message_update (text_message (py "hello"))) fresh
  = (Return tt, fresh).
Proof.
  apply (feed_update_unhandled lower_basic deliver_all no_command
           (message_update (text_message (py "hello"))) fresh).
  split; reflexivity.
Defined.

Lemma start_in_any_state_witness :
  ∃ r w',
    feed_update lower_basic deliver_all slash_start
      (message_update (text_message (py "/start")))
      (composing (Some PostForm.button) []) = (r, w')
    ∧ storage w' = storage (composing (Some PostForm.button) [])
    ∧ posts w' = [].
Proof.
  destruct (start_in_any_state lower_basic deliver_all slash_start
              (text_message (py "/start"))
              (composing (Some PostForm.button) []) eq_refl)
    as (r & w' & Hrun & _ & Hp & Hs & _).
  exists r, w'. split_and!; [exact Hrun|exact Hs|exact Hp].
Defined.

Lemma reachable_sessions_ok_witness :
  let w := feed_all scenario2 fresh in
  session_ok (record_at (7, 7) w)
  ∧ rec_state (record_at (7, 7) w) = Some PostForm.button.
Proof.
  intros w.
  destruct (reachable_sessions_ok lower_basic no_command w) as [Hok _].
  - unfold w, feed_all, scenario2. cbn [foldl].
    repeat (eapply rtc_r; [|apply step_update]). apply rtc_refl.
  - split; [apply Hok|reflexivity].
Defined.

Lemma reachable_one_draft_witness :
  (length (drafts_of 7 (feed_all scenario1 fresh)) ≤ 1)%nat.
Proof.
  destruct (reachable_one_draft lower_basic no_command
              (feed_all scenario1 fresh) 7) as [H _]; [|exact H].
  unfold feed_all, scenario1. cbn [foldl].
  repeat (eapply rtc_r; [|apply step_update]). apply rtc_refl.
Defined.

Lemma menu_buttons_handled_witness :
  ∃ handler,
    feed_callback_query deliver_all (press data_confirm_no) fresh
    = handler (press data_confirm_no) (7, 7) fresh.
Proof.
  destruct (menu_buttons_handled deliver_all (press data_confirm_no)
              (py "❌ Отменить") data_confirm_no fresh)
    as (handler & _ & H).
  - eexists. split; [|apply list_elem_of_singleton; reflexivity].
    apply elem_of_app. right. unfold confirm_menu.
    apply elem_of_cons. right. apply elem_of_cons. by left.
  - reflexivity.
  - exists handler. exact H.
Defined.

Lemma stores_per_operator_witness :
  (get_channel 7 (set_channel 8 (py "@other")
                    (composing None [hello_draft])).2).1
  = Return (Some (py "@mychannel")).
Proof.
  destruct (stores_per_operator (composing None [hello_draft]) 8 7
              (py "@other") None None None None) as (H & _); [lia|].
  rewrite H. reflexivity.
Defined.


